(** * The cart service of the QKart backend

    A shallow embedding of [src/services/cart.service.js] and the
    properties of its five operations: [getCartByUser],
    [addProductToCart], [updateProductInCart], [deleteProductFromCart]
    and [checkout].

    Modelling conventions.
    - Amounts ([cost], [quantity], [walletMoney]) are JavaScript numbers,
      that is IEEE 754 binary64 values.  They are modelled by the
      Standard Library's reference specification of floating-point
      arithmetic, [spec_float] at precision 53 and maximal exponent 1024,
      so that sums, products, differences and comparisons round and
      treat NaN as the source does.  Statements about exact amounts are
      made for safe integers, where this arithmetic is exact.
    - A Mongo ObjectId is an opaque identifier compared by value
      ([id1.equals(id2)]); it is modelled as a [string].  Ill-formed ids
      are rejected by the request validation in front of the service.
    - The persisted collections are finite maps keyed by the field the
      service queries them by.
    - Reads of the store do not fail.  Every write ([Cart.create],
      [cart.save()], [user.save()]) consults a schedule of outcomes
      carried by the world, so that a failing persist can be observed;
      a successful write is appended to a log. *)

From stdpp Require Import base option list strings gmap.
From Stdlib Require Import ZArith Lia SpecFloat.

Local Open Scope Z_scope.

(** ** Numbers *)

(** A JavaScript number. *)
Definition number : Type := spec_float.

Global Instance number_eq_dec : EqDecision number.
Proof. unfold number. solve_decision. Defined.

(** [x + y], [x * y] and [x - y], rounded to nearest, ties to even. *)
Definition num_add : number -> number -> number := SFadd 53 1024.
Definition num_mul : number -> number -> number := SFmul 53 1024.
Definition num_sub : number -> number -> number := SFsub 53 1024.

(** [x > y], which JavaScript evaluates as [y < x]; it is false when
    either side is NaN. *)
Definition num_gtb (x y : number) : bool := SFltb y x.

(** The number that an integer literal denotes: the integer rounded to
    binary64.  Integer literals of the examples below are read through
    this function. *)
Definition of_Z (z : Z) : number := binary_normalize 53 1024 z 0 false.
Coercion of_Z : Z >-> number.

(** The integer value of a number that holds an integer (the integer
    part of a finite number, 0 for NaN and the infinities). *)
Definition to_Z (x : number) : Z :=
  match x with
  | S754_finite s m e => cond_Zopp s (Z.shiftl (Zpos m) e)
  | _ => 0
  end.

(** [Number.MAX_SAFE_INTEGER] and the integers between it and its
    opposite. *)
Definition MAX_SAFE_INTEGER : Z := 2 ^ 53 - 1.

Definition safe (z : Z) : bool :=
  (- MAX_SAFE_INTEGER <=? z) && (z <=? MAX_SAFE_INTEGER).

(** The numbers that are literally a safe integer. *)
Definition is_safe_integer (x : number) : bool :=
  bool_decide (x = of_Z (to_Z x)) && safe (to_Z x).

(** ** Documents *)

Definition ObjectId := string.

Record Product := mkProduct {
  _id : ObjectId;
  cost : number
}.

Record CartItem := mkCartItem {
  product : Product;
  quantity : number
}.

(** [cartItems] is optional because the service guards every use of it
    with [!cart.cartItems]. *)
Record Cart := mkCart {
  cart_email : string;
  cartItems : option (list CartItem);
  paymentOption : string
}.

Record User := mkUser {
  email : string;
  walletMoney : number;
  address : string
}.

(** ** Errors *)

Definition NOT_FOUND : Z := 404.
Definition BAD_REQUEST : Z := 400.
Definition INTERNAL_SERVER_ERROR : Z := 500.

(** [ApiError statusCode message] is the service's structured error (the
    message is [None] when the constructor is called with a status only);
    [StoreError] is an exception raised by the persistence layer;
    [TypeError] is JavaScript's error on a property access of
    [undefined]. *)
Inductive Exn :=
  | ApiError (statusCode : Z) (message : option string)
  | StoreError
  | TypeError.

Inductive Res (A : Type) :=
  | Ok (a : A)
  | Throw (e : Exn).
Arguments Ok {A} a.
Arguments Throw {A} e.

(** ** The world: the three collections, the write schedule, the log *)

Inductive Event :=
  | CartCreated (c : Cart)
  | CartSaved (c : Cart)
  | UserSaved (u : User).

Record World := mkWorld {
  carts : gmap string Cart;
  products : gmap string Product;
  users : gmap string User;
  faults : list bool;
  log : list Event
}.

(** ** A state and exception monad over the world *)

Definition M (A : Type) : Type := World -> Res A * World.

Definition ret {A} (a : A) : M A := fun w => (Ok a, w).

Definition bind {A B} (m : M A) (k : A -> M B) : M B :=
  fun w => match m w with
           | (Ok a, w') => k a w'
           | (Throw e, w') => (Throw e, w')
           end.

Definition throw {A} (e : Exn) : M A := fun w => (Throw e, w).

Definition try_catch {A} (m : M A) (handler : Exn -> M A) : M A :=
  fun w => match m w with
           | (Ok a, w') => (Ok a, w')
           | (Throw e, w') => handler e w'
           end.

Definition gets {A} (f : World -> A) : M A := fun w => (Ok (f w), w).

Global Instance M_ret : MRet M := @ret.
Global Instance M_bind : MBind M := fun A B k m => bind m k.

(** ** The persistence layer *)

(** One write to the store.  The head of the schedule decides whether it
    is accepted ([false], or an exhausted schedule) or rejected ([true]);
    a rejected write leaves the collections as they are. *)
Definition write (ev : Event) (upd : World -> World) : M unit :=
  fun w =>
    match faults w with
    | true :: fs =>
        (Throw StoreError,
         mkWorld (carts w) (products w) (users w) fs (log w))
    | _ =>
        let w' := upd w in
        (Ok tt,
         mkWorld (carts w') (products w') (users w') (tl (faults w))
                 (log w ++ [ev]))
    end.

Definition put_cart (c : Cart) (w : World) : World :=
  mkWorld (<[cart_email c := c]> (carts w)) (products w) (users w)
          (faults w) (log w).

Definition put_user (u : User) (w : World) : World :=
  mkWorld (carts w) (products w) (<[email u := u]> (users w))
          (faults w) (log w).

(** [Cart.findOne({ email })]: the cart whose email field is [e]. *)
Definition Cart_findOne (e : string) (w : World) : option Cart :=
  match carts w !! e with
  | Some c => if bool_decide (cart_email c = e) then Some c else None
  | None => None
  end.

(** [Product.findById(id)]: the product whose [_id] is [id]. *)
Definition Product_findById (id : ObjectId) (w : World) : option Product :=
  match products w !! id with
  | Some p => if bool_decide (_id p = id) then Some p else None
  | None => None
  end.

(** [Cart.create(doc)] persists a new document and returns it. *)
Definition Cart_create (c : Cart) : M Cart :=
  write (CartCreated c) (put_cart c) ;; mret c.

(** [cart.save()] *)
Definition Cart_save (c : Cart) : M unit :=
  write (CartSaved c) (put_cart c).

(** [user.save()] *)
Definition User_save (u : User) : M unit :=
  write (UserSaved u) (put_user u).

(** ** Array helpers *)

(** The callback shared by [some], [findIndex] and [filter]:
    [ObjectId(cartItem.product._id).equals(ObjectId(productId))]. *)
Definition same_product (productId : ObjectId) (cartItem : CartItem) : bool :=
  bool_decide (_id (product cartItem) = productId).

(** [Array.prototype.findIndex]: the first index whose element satisfies
    the predicate, [-1] when there is none. *)
Fixpoint findIndex {A} (p : A -> bool) (l : list A) : Z :=
  match l with
  | [] => -1
  | x :: l' =>
      if p x then 0
      else let i := findIndex p l' in
           if i =? -1 then -1 else i + 1
  end.

(** ** The service *)

Section CartService.

(** [config.default_payment_option] *)
Variable default_payment_option : string.

(** [user.hasSetNonDefaultAddress()], a predicate of the User model. *)
Variable hasSetNonDefaultAddress : User -> bool.

Definition getCartByUser (user : User) : M Cart :=
  cart ← gets (Cart_findOne (email user));
  match cart with
  | None => throw (ApiError NOT_FOUND (Some "User does not have a cart"))
  | Some cart => mret cart
  end.

Definition addProductToCart (user : User) (productId : ObjectId)
    (quantity : number) : M Cart :=
  cart ← gets (Cart_findOne (email user));
  cart ← match cart with
         | Some cart => mret cart
         | None =>
             try_catch
               (Cart_create (mkCart (email user) (Some [])
                                    default_payment_option))
               (fun error =>
                  throw (ApiError INTERNAL_SERVER_ERROR
                                  (Some "User cart Creation failed.")))
         end;
  let isProductAlreadyPresent :=
    match cartItems cart with
    | None => false
    | Some items => existsb (same_product productId) items
    end in
  if isProductAlreadyPresent then
    throw (ApiError BAD_REQUEST
      (Some "Product already in cart. Use the cart sidebar to update or remove product from cart"))
  else
    productInDB ← gets (Product_findById productId);
    match productInDB with
    | None =>
        throw (ApiError BAD_REQUEST (Some "Product doesn't exist in database"))
    | Some productInDB =>
        match cartItems cart with
        | None => throw (ApiError INTERNAL_SERVER_ERROR None)
        | Some items =>
            let cart :=
              mkCart (cart_email cart)
                     (Some (items ++ [mkCartItem productInDB quantity]))
                     (paymentOption cart) in
            Cart_save cart ;;
            mret cart
        end
    end.

Definition updateProductInCart (user : User) (productId : ObjectId)
    (quantity : number) : M Cart :=
  cart ← gets (Cart_findOne (email user));
  match cart with
  | None =>
      throw (ApiError BAD_REQUEST
        (Some "User does not have a cart. Use POST to create cart and add a product"))
  | Some cart =>
      productInDB ← gets (Product_findById productId);
      match productInDB with
      | None =>
          throw (ApiError BAD_REQUEST
                          (Some "Product doesn't exist in database"))
      | Some _ =>
          let productIndex :=
            match cartItems cart with
            | None => -1
            | Some items => findIndex (same_product productId) items
            end in
          if productIndex =? -1 then
            throw (ApiError BAD_REQUEST (Some "Product not in cart"))
          else
            match cartItems cart with
            | None => throw TypeError
            | Some items =>
                match items !! Z.to_nat productIndex with
                | None => throw TypeError
                | Some item =>
                    let cart :=
                      mkCart (cart_email cart)
                        (Some (<[Z.to_nat productIndex :=
                                   mkCartItem (product item) quantity]> items))
                        (paymentOption cart) in
                    Cart_save cart ;;
                    mret cart
                end
            end
      end
  end.

Definition deleteProductFromCart (user : User) (productId : ObjectId)
    : M unit :=
  cart ← gets (Cart_findOne (email user));
  match cart with
  | None => throw (ApiError BAD_REQUEST (Some "User does not have a cart"))
  | Some cart =>
      let productIndex :=
        match cartItems cart with
        | None => -1
        | Some items => findIndex (same_product productId) items
        end in
      if productIndex =? -1 then
        throw (ApiError BAD_REQUEST (Some "Product not in cart"))
      else
        let cart :=
          mkCart (cart_email cart)
            (Some match cartItems cart with
                  | None => []
                  | Some items =>
                      List.filter
                        (fun cartItem => negb (same_product productId cartItem))
                        items
                  end)
            (paymentOption cart) in
        Cart_save cart
  end.

(** [checkout] also mutates its argument: besides the outcome and the
    world it returns the in-memory [user] document as the call leaves
    it. *)
Definition checkout (user : User) (w : World) : Res unit * User * World :=
  match Cart_findOne (email user) w with
  | None =>
      (Throw (ApiError NOT_FOUND (Some "User does not have a cart")), user, w)
  | Some cart =>
      match cartItems cart with
      | None => (Throw (ApiError BAD_REQUEST None), user, w)
      | Some items =>
          if (length items =? 0)%nat then
            (Throw (ApiError BAD_REQUEST None), user, w)
          else
            let userhas := hasSetNonDefaultAddress user in
            if negb userhas then
              (Throw (ApiError BAD_REQUEST None), user, w)
            else
              let totalCost :=
                fold_left
                  (fun acc item =>
                     num_add acc
                       (num_mul (cost (product item)) (quantity item)))
                  items (of_Z 0) in
              if num_gtb totalCost (walletMoney user) then
                (Throw (ApiError BAD_REQUEST None), user, w)
              else
                let user :=
                  mkUser (email user) (num_sub (walletMoney user) totalCost)
                         (address user) in
                match User_save user w with
                | (Throw e, w) => (Throw e, user, w)
                | (Ok _, w) =>
                    let cart :=
                      mkCart (cart_email cart) (Some [])
                             (paymentOption cart) in
                    match Cart_save cart w with
                    | (r, w) => (r, user, w)
                    end
                end
      end
  end.

End CartService.

(** ** Vocabulary of the specification *)

(** The total cost as the specification words it: the sum over the cart
    items of unit cost times quantity, in exact integer arithmetic on
    the integer values of the amounts. *)
Fixpoint total_cost (items : list CartItem) : Z :=
  match items with
  | [] => 0
  | item :: items' =>
      to_Z (cost (product item)) * to_Z (quantity item) + total_cost items'
  end.

(** The total cost as [checkout] computes it:
    [cart.cartItems.reduce((cost, item) => cost + item.product.cost *
    item.quantity, 0)]. *)
Definition cart_total (items : list CartItem) : number :=
  fold_left
    (fun acc item =>
       num_add acc (num_mul (cost (product item)) (quantity item)))
    items (of_Z 0).

(** The amounts of a cart are safe: every unit cost and every quantity
    is a safe integer, and so are every line amount and every running
    total of the [reduce], starting from [acc]. *)
Fixpoint running_totals_safe (acc : Z) (items : list CartItem) : bool :=
  match items with
  | [] => true
  | item :: items' =>
      let c := to_Z (cost (product item)) in
      let q := to_Z (quantity item) in
      is_safe_integer (cost (product item)) &&
      is_safe_integer (quantity item) &&
      safe (c * q) && safe (acc + c * q) &&
      running_totals_safe (acc + c * q) items'
  end.

Definition safe_amounts (items : list CartItem) : bool :=
  running_totals_safe 0 items.


(** The shape of the binary64 number of a non-zero safe integer: its
    number of binary digits, its mantissa normalised to 53 digits, and
    the number itself for a sign and an absolute value. *)
Definition digits (p : positive) : Z := Zpos (digits2_pos p).

Definition mant (p : positive) : positive :=
  Z.to_pos (Zpos p * 2 ^ (53 - digits p)).

Definition canon (s : bool) (p : positive) : number :=
  S754_finite s (mant p) (digits p - 53).

Definition signed (s : bool) (p : positive) : Z := cond_Zopp s (Zpos p).

(** [x] holds the integer [z]; a product that is zero may be the
    negative zero. *)
Definition represents (z : Z) (x : number) : Prop :=
  x = of_Z z \/ (z = 0 /\ x = S754_zero true).

(** The HTTP status carried by an outcome, if it is an [ApiError]. *)
Definition status_of {A} (r : Res A) : option Z :=
  match r with
  | Throw (ApiError statusCode _) => Some statusCode
  | _ => None
  end.

(** The store accepts the next [n] writes. *)
Definition writes_accepted (n : nat) (w : World) : bool :=
  forallb negb (take n (faults w)).

(** The world after an accepted write. *)
Definition committed (ev : Event) (upd : World -> World) (w : World) : World :=
  mkWorld (carts (upd w)) (products (upd w)) (users (upd w))
          (tl (faults w)) (log w ++ [ev]).

(** What a checkout does once all its guards have passed: the debited
    user document, and the world after both persists. *)
Definition debited (user : User) (items : list CartItem) : User :=
  mkUser (email user) (num_sub (walletMoney user) (cart_total items))
         (address user).

Definition emptied (cart : Cart) : Cart :=
  mkCart (cart_email cart) (Some []) (paymentOption cart).

Definition after_checkout (user : User) (cart : Cart)
    (items : list CartItem) (w : World) : World :=
  let u := debited user items in
  committed (CartSaved (emptied cart)) (put_cart (emptied cart))
    (committed (UserSaved u) (put_user u) w).

(** The cart items that refer to [productId], and how many there are. *)
Definition in_cart (productId : ObjectId) (items : list CartItem) : bool :=
  existsb (same_product productId) items.

Definition count_product (productId : ObjectId) (items : list CartItem) : nat :=
  length (List.filter (same_product productId) items).

(** [isProductAlreadyPresent], as [addProductToCart] computes it. *)
Definition cart_has (productId : ObjectId) (cart : Cart) : bool :=
  match cartItems cart with
  | None => false
  | Some items => in_cart productId items
  end.

(** The document that [addProductToCart] creates for a user without a
    cart. *)
Definition fresh_cart (dpo : string) (user : User) : Cart :=
  mkCart (email user) (Some []) dpo.

(** The cart after [cart.cartItems[i].quantity = quantity]. *)
Definition with_quantity (cart : Cart) (items : list CartItem) (i : nat)
    (item : CartItem) (quantity : number) : Cart :=
  mkCart (cart_email cart)
         (Some (<[i := mkCartItem (product item) quantity]> items))
         (paymentOption cart).

(** The uniqueness invariant: no two items of a cart refer to the same
    product. *)
Definition product_ids (items : list CartItem) : list ObjectId :=
  map (fun item => _id (product item)) items.

Definition cart_unique (c : Cart) : Prop :=
  match cartItems c with
  | None => True
  | Some items => NoDup (product_ids items)
  end.

Definition carts_unique (w : World) : Prop :=
  forall e c, carts w !! e = Some c -> cart_unique c.

(** [preserves I m Q]: from a world that satisfies [I], the computation
    [m] ends, normally or with an exception, in a world that satisfies
    [I], and a value it returns satisfies [Q]. *)
Definition preserves {A} (I : World -> Prop) (m : M A) (Q : A -> Prop) : Prop :=
  forall w, I w -> I (m w).2 /\ forall a, (m w).1 = Ok a -> Q a.

(** The requests the service answers, and the world each one leaves. *)
Inductive Op :=
  | OpGet (user : User)
  | OpAdd (user : User) (productId : ObjectId) (quantity : number)
  | OpUpdate (user : User) (productId : ObjectId) (quantity : number)
  | OpDelete (user : User) (productId : ObjectId)
  | OpCheckout (user : User).

Definition run_op (dpo : string) (addr : User -> bool) (op : Op)
    (w : World) : World :=
  match op with
  | OpGet user => snd (getCartByUser user w)
  | OpAdd user productId quantity =>
      snd (addProductToCart dpo user productId quantity w)
  | OpUpdate user productId quantity =>
      snd (updateProductInCart user productId quantity w)
  | OpDelete user productId => snd (deleteProductFromCart user productId w)
  | OpCheckout user => snd (checkout addr user w)
  end.

Definition run_ops (dpo : string) (addr : User -> bool) (ops : list Op)
    (w : World) : World :=
  fold_left (fun w op => run_op dpo addr op w) ops w.

(** The item list that [deleteProductFromCart] keeps: the [filter] of
    the items that do not refer to [productId]. *)
Definition without_product (productId : ObjectId) (items : list CartItem)
    : list CartItem :=
  List.filter (fun cartItem => negb (same_product productId cartItem)) items.

(** The user on whose behalf a request is made. *)
Definition op_user (op : Op) : User :=
  match op with
  | OpGet user => user
  | OpAdd user _ _ => user
  | OpUpdate user _ _ => user
  | OpDelete user _ => user
  | OpCheckout user => user
  end.

(** [w'] differs from [w] at most in the cart and the user document
    stored under the email of [user]. *)
Definition untouched_elsewhere (user : User) (w w' : World) : Prop :=
  products w' = products w /\
  (forall e, e <> email user -> carts w' !! e = carts w !! e) /\
  (forall e, e <> email user -> users w' !! e = users w !! e).

(** The invariant of the operations that write carts only: besides
    [untouched_elsewhere], the users collection is as in [w]. *)
Definition carts_only (user : User) (w w' : World) : Prop :=
  untouched_elsewhere user w w' /\ users w' = users w.

(** A cart that was looked up for [user] carries the user's email. *)
Definition own_cart (user : User) (found : option Cart) : Prop :=
  forall cart, found = Some cart -> cart_email cart = email user.

(** ** A sample store

    One user with the cart of the specification's checkout scenario:
    two units of a product that costs 100 and one unit of a product that
    costs 50. *)

Definition apple : Product := mkProduct "p1" (of_Z 100).
Definition pear : Product := mkProduct "p2" (of_Z 50).

Definition alice (wallet : Z) : User :=
  mkUser "alice@qkart.io" (of_Z wallet) "Pune".

Definition alice_cart : Cart :=
  mkCart "alice@qkart.io" (Some [mkCartItem apple 2; mkCartItem pear 1]) "PAYMENT_OPTION_DEFAULT".

Definition shop (schedule : list bool) : World :=
  mkWorld {[ "alice@qkart.io" := alice_cart ]}
          (<[ "p1" := apple ]> {[ "p2" := pear ]})
          ∅ schedule [].

(** A store with the two products and no cart. *)
Definition empty_shop (schedule : list bool) : World :=
  mkWorld ∅ (<[ "p1" := apple ]> {[ "p2" := pear ]}) ∅ schedule [].

(** A store where alice's cart holds a product that the store no longer
    knows. *)
Definition shop_without_products (schedule : list bool) : World :=
  mkWorld {[ "alice@qkart.io" := alice_cart ]} ∅ ∅ schedule [].

(** A store where alice's cart document has no item list. *)
Definition bare_cart : Cart :=
  mkCart "alice@qkart.io" None "PAYMENT_OPTION_DEFAULT".

Definition bare_shop (schedule : list bool) : World :=
  mkWorld {[ "alice@qkart.io" := bare_cart ]}
          (<[ "p1" := apple ]> {[ "p2" := pear ]})
          ∅ schedule [].

(** A store where alice's cart holds the apples only. *)
Definition apple_cart : Cart :=
  mkCart "alice@qkart.io" (Some [mkCartItem apple 2]) "PAYMENT_OPTION_DEFAULT".

Definition apple_shop (schedule : list bool) : World :=
  mkWorld {[ "alice@qkart.io" := apple_cart ]}
          (<[ "p1" := apple ]> {[ "p2" := pear ]})
          ∅ schedule [].

(** An instance of the address predicate for the examples: the address
    differs from the placeholder of a user who never set one. *)
Definition non_default (u : User) : bool :=
  negb (String.eqb (address u) "ADDRESS_NOT_SET").

(** ** Binary64 arithmetic on safe integers

    The sum, the product and the difference of two safe integers are
    computed exactly when the result is a safe integer, and the
    comparison of two safe integers is that of the integers. *)

Lemma digits2_pos_size p : digits2_pos p = Pos.size p.
Proof. induction p; simpl; congruence. Qed.

Lemma digits_pos p : 1 <= digits p.
Proof. unfold digits. lia. Qed.

Lemma digits_bounds p : 2 ^ (digits p - 1) <= Zpos p < 2 ^ digits p.
Proof.
  unfold digits. rewrite digits2_pos_size.
  pose proof (Pos.size_gt p) as Hgt. pose proof (Pos.size_le p) as Hle.
  apply Pos2Z.pos_lt_pos in Hgt. apply Pos2Z.pos_le_pos in Hle.
  rewrite Pos2Z.inj_pow in Hgt, Hle.
  change (Z.pos p~0) with (2 * Z.pos p) in Hle.
  split; [|exact Hgt].
  replace (Z.pos (Pos.size p)) with (Z.succ (Z.pos (Pos.size p) - 1)) in Hle by lia.
  rewrite Z.pow_succ_r in Hle by lia. lia.
Qed.

Lemma digits_unique p d : 2 ^ (d - 1) <= Zpos p < 2 ^ d -> digits p = d.
Proof.
  intros [Hlo Hhi]. pose proof (digits_bounds p) as [Hlo' Hhi'].
  pose proof (digits_pos p).
  assert (0 < d).
  { destruct (Z.ltb_spec 0 d) as [|Hd]; [done|].
    assert (2 ^ d <= 2 ^ 0) by (apply Z.pow_le_mono_r; lia).
    simpl in *. lia. }
  destruct (Z.lt_trichotomy (digits p) d) as [Hlt|[Heq|Hgt]]; [|done|].
  - assert (2 ^ digits p <= 2 ^ (d - 1)) by (apply Z.pow_le_mono_r; lia). lia.
  - assert (2 ^ d <= 2 ^ (digits p - 1)) by (apply Z.pow_le_mono_r; lia). lia.
Qed.

Lemma digits_scale p k M :
  0 <= k -> Zpos M = Zpos p * 2 ^ k -> digits M = digits p + k.
Proof.
  intros Hk HM. apply digits_unique. rewrite HM.
  pose proof (digits_bounds p) as [Hlo Hhi]. pose proof (digits_pos p).
  replace (digits p + k - 1) with ((digits p - 1) + k) by lia.
  rewrite !Z.pow_add_r by lia.
  assert (0 < 2 ^ k) by (apply Z.pow_pos_nonneg; lia). nia.
Qed.

Lemma iter_xO p n : Zpos (Pos.iter xO p n) = Zpos p * 2 ^ Zpos n.
Proof.
  induction n as [|n IH] using Pos.peano_ind.
  - simpl. lia.
  - rewrite Pos.iter_succ, Pos2Z.inj_xO, IH, Pos2Z.inj_succ.
    rewrite Z.pow_succ_r by lia. lia.
Qed.

Lemma iter_pos_iter {A} (f : A -> A) n x : iter_pos f n x = Pos.iter f x n.
Proof.
  revert x. induction n as [n IH|n IH|]; intros x; simpl.
  - rewrite !IH. by rewrite <- !Pos.iter_swap.
  - by rewrite !IH.
  - done.
Qed.

Lemma shr_1_exact j m :
  Pos.iter shr_1 (Build_shr_record (Zpos (Pos.iter xO m j)) false false) j
  = Build_shr_record (Zpos m) false false.
Proof.
  induction j as [|j IH] using Pos.peano_ind.
  - reflexivity.
  - rewrite Pos.iter_succ_r, Pos.iter_succ. simpl. apply IH.
Qed.

Lemma mant_value p : digits p <= 53 -> Zpos (mant p) = Zpos p * 2 ^ (53 - digits p).
Proof.
  intros Hd. unfold mant. rewrite Z2Pos.id; [done|].
  assert (0 < 2 ^ (53 - digits p)) by (apply Z.pow_pos_nonneg; lia). lia.
Qed.

Lemma digits_mant p : digits p <= 53 -> digits (mant p) = 53.
Proof.
  intros Hd. rewrite (digits_scale p (53 - digits p)); [lia|lia|].
  by apply mant_value.
Qed.

Lemma fexp_64 e : fexp 53 1024 e = Z.max (e - 53) (-1074).
Proof. reflexivity. Qed.

Lemma binary_round_aux_exact s z0 M E :
  digits z0 <= 53 ->
  E <= digits z0 - 53 ->
  Zpos M = Zpos z0 * 2 ^ (- E) ->
  binary_round_aux 53 1024 s (Zpos M) E loc_Exact = canon s z0.
Proof.
  intros Hd HE HM. pose proof (digits_pos z0) as Hd1.
  set (d := digits z0) in *. set (j := d - 53 - E).
  assert (Zpos M = Zpos (mant z0) * 2 ^ j) as HMn.
  { rewrite HM, mant_value by done. fold d. rewrite <- Z.mul_assoc.
    rewrite <- Z.pow_add_r by lia. f_equal. f_equal. lia. }
  assert (digits M = 53 + j) as HdM.
  { rewrite (digits_scale (mant z0) j M); [|lia|done].
    rewrite digits_mant by done. lia. }
  unfold binary_round_aux, shr_fexp. simpl Zdigits2.
  fold (digits M). rewrite HdM. rewrite fexp_64.
  replace (Z.max (53 + j + E - 53) (-1074) - E) with j by lia.
  assert (shr (shr_record_of_loc (Z.pos M) loc_Exact) E j
          = (Build_shr_record (Zpos (mant z0)) false false, d - 53)) as ->.
  { unfold shr. simpl shr_record_of_loc.
    destruct j as [|q|q] eqn:Hj; [| |lia].
    - f_equal; [|lia]. f_equal. rewrite HMn. lia.
    - rewrite iter_pos_iter. f_equal; [|lia].
      assert (M = Pos.iter xO (mant z0) q) as ->.
      { apply Pos2Z.inj. by rewrite iter_xO. }
      apply shr_1_exact. }
  simpl shr_m. simpl loc_of_shr_record. simpl round_nearest_even.
  simpl Zdigits2. fold (digits (mant z0)). rewrite digits_mant by done.
  rewrite fexp_64.
  replace (Z.max (53 + (d - 53) - 53) (-1074) - (d - 53)) with 0 by lia.
  simpl. destruct (Z.leb_spec (d - 53) (1024 - 53)); [done|lia].
Qed.

Lemma binary_round_exact s z0 M E :
  digits z0 <= 53 ->
  E <= 0 ->
  Zpos M = Zpos z0 * 2 ^ (- E) ->
  binary_round 53 1024 s M E = canon s z0.
Proof.
  intros Hd HE HM. pose proof (digits_pos z0) as Hd1.
  unfold binary_round. fold (digits M).
  rewrite (digits_scale z0 (- E) M) by (done || lia).
  rewrite fexp_64.
  replace (Z.max (digits z0 + - E + E - 53) (-1074)) with (digits z0 - 53) by lia.
  unfold shl_align.
  destruct (digits z0 - 53 - E) as [|q|q] eqn:Hq.
  - apply binary_round_aux_exact; (done || lia).
  - apply binary_round_aux_exact; (done || lia).
  - apply binary_round_aux_exact; [done|lia|].
    rewrite iter_xO, HM, <- Z.mul_assoc, <- Z.pow_add_r by lia.
    f_equal. f_equal. lia.
Qed.

Lemma of_Z_pos p : digits p <= 53 -> of_Z (Zpos p) = canon false p.
Proof.
  intros Hd. unfold of_Z. simpl. apply binary_round_exact; [done|lia|].
  simpl. lia.
Qed.

Lemma of_Z_neg p : digits p <= 53 -> of_Z (Zneg p) = canon true p.
Proof.
  intros Hd. unfold of_Z. simpl. apply binary_round_exact; [done|lia|].
  simpl. lia.
Qed.

Lemma safe_spec z : safe z = true <-> - 2 ^ 53 < z < 2 ^ 53.
Proof.
  unfold safe, MAX_SAFE_INTEGER. rewrite andb_true_iff, !Z.leb_le. lia.
Qed.

Lemma digits_safe p : Zpos p < 2 ^ 53 -> digits p <= 53.
Proof.
  intros H. pose proof (digits_bounds p) as [Hlo _].
  destruct (Z.leb_spec (digits p) 53) as [|Hgt]; [done|].
  assert (2 ^ 53 <= 2 ^ (digits p - 1)) by (apply Z.pow_le_mono_r; lia).
  lia.
Qed.

Lemma binary_normalize_exact z k M :
  0 <= k -> safe z = true -> M = z * 2 ^ k ->
  binary_normalize 53 1024 M (- k) false = of_Z z.
Proof.
  intros Hk Hs ->. apply safe_spec in Hs.
  assert (0 < 2 ^ k) by (apply Z.pow_pos_nonneg; lia).
  destruct z as [|p|p].
  - reflexivity.
  - assert (digits p <= 53) by (apply digits_safe; lia).
    rewrite of_Z_pos by done.
    destruct (Z.pos p * 2 ^ k) as [|M|M] eqn:HM; try lia.
    simpl. apply binary_round_exact; [done|lia|].
    rewrite Z.opp_involutive. done.
  - assert (digits p <= 53) by (apply digits_safe; lia).
    rewrite of_Z_neg by done.
    destruct (Z.neg p * 2 ^ k) as [|M|M] eqn:HM; try lia.
    simpl. apply binary_round_exact; [done|lia|].
    rewrite Z.opp_involutive. lia.
Qed.

Lemma shl_align_value mx ex ez :
  ez <= ex -> Zpos (fst (shl_align mx ex ez)) = Zpos mx * 2 ^ (ex - ez).
Proof.
  intros H. unfold shl_align.
  destruct (ez - ex) as [|q|q] eqn:Hq; simpl fst.
  - replace (ex - ez) with 0 by lia. simpl. lia.
  - lia.
  - rewrite iter_xO. f_equal. f_equal. lia.
Qed.

Lemma canon_aligned s p ez :
  digits p <= 53 -> ez <= digits p - 53 ->
  cond_Zopp s (Zpos (fst (shl_align (mant p) (digits p - 53) ez)))
  = signed s p * 2 ^ (- ez).
Proof.
  intros Hd He. rewrite shl_align_value by done.
  rewrite mant_value by done. rewrite <- Z.mul_assoc, <- Z.pow_add_r by lia.
  replace (53 - digits p + (digits p - 53 - ez)) with (- ez) by lia.
  unfold signed. destruct s; simpl; lia.
Qed.

Lemma of_Z_signed s p :
  digits p <= 53 -> of_Z (signed s p) = canon s p.
Proof. intros Hd. destruct s; simpl; [by apply of_Z_neg|by apply of_Z_pos]. Qed.

Lemma SFadd_canon sx px sy py :
  digits px <= 53 -> digits py <= 53 ->
  safe (signed sx px + signed sy py) = true ->
  SFadd 53 1024 (canon sx px) (canon sy py)
  = of_Z (signed sx px + signed sy py).
Proof.
  intros Hx Hy Hs. unfold canon. cbn [SFadd].
  set (ez := Z.min (digits px - 53) (digits py - 53)).
  rewrite !canon_aligned by (done || lia).
  replace ez with (- - ez) at 3 by lia.
  apply binary_normalize_exact; [lia|done|lia].
Qed.


Lemma safe_cases z :
  safe z = true ->
  z = 0 \/ exists s p, z = signed s p /\ digits p <= 53.
Proof.
  intros Hs. apply safe_spec in Hs. destruct z as [|p|p]; [by left| |].
  - right. exists false, p. split; [done|]. apply digits_safe. lia.
  - right. exists true, p. split; [done|]. apply digits_safe. lia.
Qed.

Lemma num_add_exact a b :
  safe a = true -> safe b = true -> safe (a + b) = true ->
  num_add (of_Z a) (of_Z b) = of_Z (a + b).
Proof.
  intros Ha Hb Hab. unfold num_add.
  destruct (safe_cases a Ha) as [->|(sa & pa & -> & Hda)];
    destruct (safe_cases b Hb) as [->|(sb & pb & -> & Hdb)].
  - reflexivity.
  - rewrite Z.add_0_l, of_Z_signed by done. reflexivity.
  - rewrite Z.add_0_r, of_Z_signed by done. reflexivity.
  - rewrite !of_Z_signed by done. by apply SFadd_canon.
Qed.

Lemma num_add_neg_zero a :
  safe a = true -> num_add (of_Z a) (S754_zero true) = of_Z a.
Proof.
  intros Ha. unfold num_add.
  destruct (safe_cases a Ha) as [->|(sa & pa & -> & Hda)]; [done|].
  by rewrite of_Z_signed.
Qed.


Lemma digits_mul_lower px py :
  digits px + digits py - 1 <= digits (px * py).
Proof.
  pose proof (digits_bounds px) as [Hx _].
  pose proof (digits_bounds py) as [Hy _].
  pose proof (digits_bounds (px * py)) as [_ Hz].
  pose proof (digits_pos px). pose proof (digits_pos py).
  rewrite Pos2Z.inj_mul in Hz.
  destruct (Z.leb_spec (digits px + digits py - 1) (digits (px * py)))
    as [|Hlt]; [done|].
  assert (2 ^ digits (px * py) <= 2 ^ (digits px - 1 + (digits py - 1)))
    by (apply Z.pow_le_mono_r; lia).
  rewrite Z.pow_add_r in * by lia.
  assert (0 < 2 ^ (digits px - 1)) by (apply Z.pow_pos_nonneg; lia).
  assert (0 < 2 ^ (digits py - 1)) by (apply Z.pow_pos_nonneg; lia).
  nia.
Qed.

Lemma SFmul_canon sx px sy py :
  digits px <= 53 -> digits py <= 53 -> digits (px * py) <= 53 ->
  SFmul 53 1024 (canon sx px) (canon sy py) = canon (xorb sx sy) (px * py).
Proof.
  intros Hx Hy Hxy. unfold canon at 1 2. cbn [SFmul].
  pose proof (digits_mul_lower px py).
  pose proof (digits_pos px). pose proof (digits_pos py).
  apply binary_round_aux_exact; [done|lia|].
  rewrite !Pos2Z.inj_mul, !mant_value by done.
  replace (- (digits px - 53 + (digits py - 53)))
    with ((53 - digits px) + (53 - digits py)) by lia.
  rewrite Z.pow_add_r by lia. lia.
Qed.

Lemma signed_mul sx px sy py :
  signed sx px * signed sy py = signed (xorb sx sy) (px * py).
Proof. destruct sx, sy; simpl; lia. Qed.

Lemma num_mul_exact a b :
  safe a = true -> safe b = true -> safe (a * b) = true ->
  represents (a * b) (num_mul (of_Z a) (of_Z b)).
Proof.
  intros Ha Hb Hab. unfold num_mul.
  destruct (safe_cases a Ha) as [->|(sa & pa & -> & Hda)];
    destruct (safe_cases b Hb) as [->|(sb & pb & -> & Hdb)].
  - by left.
  - rewrite Z.mul_0_l, of_Z_signed by done. simpl.
    destruct sb; [by right|by left].
  - rewrite Z.mul_0_r, of_Z_signed by done. simpl.
    destruct sa; [by right|by left].
  - left. rewrite signed_mul in *.
    assert (digits (pa * pb) <= 53).
    { apply digits_safe. apply safe_spec in Hab.
      destruct (xorb sa sb); simpl in Hab; lia. }
    rewrite !of_Z_signed by done. by apply SFmul_canon.
Qed.

Lemma num_add_represents a b x :
  safe a = true -> safe b = true -> safe (a + b) = true ->
  represents b x ->
  num_add (of_Z a) x = of_Z (a + b).
Proof.
  intros Ha Hb Hab [->|[-> ->]].
  - by apply num_add_exact.
  - rewrite Z.add_0_r. by apply num_add_neg_zero.
Qed.





Lemma is_safe_integer_spec x :
  is_safe_integer x = true -> x = of_Z (to_Z x) /\ safe (to_Z x) = true.
Proof.
  unfold is_safe_integer. rewrite andb_true_iff, bool_decide_eq_true. tauto.
Qed.

Lemma line_amount_exact x y :
  is_safe_integer x = true -> is_safe_integer y = true ->
  safe (to_Z x * to_Z y) = true ->
  represents (to_Z x * to_Z y) (num_mul x y).
Proof.
  intros Hx Hy Hxy.
  apply is_safe_integer_spec in Hx as [Hx Hsx].
  apply is_safe_integer_spec in Hy as [Hy Hsy].
  pose proof (num_mul_exact (to_Z x) (to_Z y) Hsx Hsy Hxy) as H.
  by rewrite <- Hx, <- Hy in H.
Qed.

Lemma cart_total_from acc items :
  safe acc = true ->
  running_totals_safe acc items = true ->
  fold_left
    (fun acc item =>
       num_add acc (num_mul (cost (product item)) (quantity item)))
    items (of_Z acc)
  = of_Z (acc + total_cost items) /\
  safe (acc + total_cost items) = true.
Proof.
  revert acc. induction items as [|item items IH]; intros acc Hacc Hsafe.
  - simpl. by rewrite Z.add_0_r.
  - simpl in Hsafe. apply andb_true_iff in Hsafe as [Hsafe Hrest].
    apply andb_true_iff in Hsafe as [Hsafe Hsum].
    apply andb_true_iff in Hsafe as [Hsafe Hline].
    apply andb_true_iff in Hsafe as [Hc Hq].
    cbn [fold_left total_cost].
    rewrite (num_add_represents acc _ _ Hacc Hline Hsum
               (line_amount_exact _ _ Hc Hq Hline)).
    rewrite Z.add_assoc. by apply IH.
Qed.

Lemma cart_total_exact items :
  safe_amounts items = true ->
  cart_total items = of_Z (total_cost items) /\
  safe (total_cost items) = true.
Proof.
  intros H. by apply (cart_total_from 0 items).
Qed.

(** ** Basic facts about the model *)

Lemma write_accepted (n : nat) (ev : Event) (upd : World -> World) (w : World) :
  writes_accepted (S n) w = true ->
  write ev upd w = (Ok tt, committed ev upd w).
Proof.
  unfold writes_accepted, write, committed.
  destruct (faults w) as [|[] fs]; simpl; intros H; try reflexivity.
  discriminate H.
Qed.

Lemma write_rejected (ev : Event) (upd : World -> World) (w : World) fs :
  faults w = true :: fs ->
  write ev upd w
  = (Throw StoreError, mkWorld (carts w) (products w) (users w) fs (log w)).
Proof. unfold write. intros ->. reflexivity. Qed.

Lemma writes_accepted_committed_cart n ev c w :
  writes_accepted (S n) w = true ->
  writes_accepted n (committed ev (put_cart c) w) = true.
Proof.
  unfold writes_accepted, committed. simpl.
  destruct (faults w) as [|b fs]; simpl.
  - intros _. by destruct n.
  - intros H. apply andb_true_iff in H. tauto.
Qed.


Lemma Cart_findOne_email e w c :
  Cart_findOne e w = Some c -> cart_email c = e.
Proof.
  unfold Cart_findOne. destruct (carts w !! e) as [c0|]; [|done].
  case_bool_decide; congruence.
Qed.

Lemma Cart_findOne_lookup e w c :
  Cart_findOne e w = Some c -> carts w !! e = Some c.
Proof.
  unfold Cart_findOne. destruct (carts w !! e) as [c0|]; [|done].
  case_bool_decide; congruence.
Qed.

Lemma Cart_findOne_put_cart ev c w :
  Cart_findOne (cart_email c) (committed ev (put_cart c) w) = Some c.
Proof.
  unfold Cart_findOne, committed, put_cart. simpl.
  rewrite lookup_insert_eq. by rewrite bool_decide_eq_true_2.
Qed.

Lemma Cart_findOne_put_user ev u e w :
  Cart_findOne e (committed ev (put_user u) w) = Cart_findOne e w.
Proof. reflexivity. Qed.

Lemma Product_findById_id id w p :
  Product_findById id w = Some p -> _id p = id.
Proof.
  unfold Product_findById. destruct (products w !! id) as [p0|]; [|done].
  case_bool_decide; congruence.
Qed.

(** ** Checkout *)

Section Checkout.

Variable hasSetNonDefaultAddress : User -> bool.

Lemma checkout_passes_guards user w cart items :
  Cart_findOne (email user) w = Some cart ->
  cartItems cart = Some items ->
  items <> [] ->
  hasSetNonDefaultAddress user = true ->
  num_gtb (cart_total items) (walletMoney user) = false ->
  checkout hasSetNonDefaultAddress user w
  = match User_save (debited user items) w with
    | (Throw e, w1) => (Throw e, debited user items, w1)
    | (Ok _, w1) =>
        match Cart_save (emptied cart) w1 with
        | (r, w2) => (r, debited user items, w2)
        end
    end.
Proof.
  intros Hc Hi Hne Ha Hg. unfold checkout. rewrite Hc, Hi.
  destruct items as [|item items']; [done|].
  change (length (item :: items') =? 0)%nat with false. cbv iota.
  rewrite Ha. cbn [negb]. cbv zeta.
  change (fold_left _ (item :: items') (of_Z 0))
    with (cart_total (item :: items')).
  by rewrite Hg.
Qed.







Lemma write_outcome ev upd w r w' :
  write ev upd w = (r, w') ->
  (r = Ok tt /\ w' = committed ev upd w) \/
  (r = Throw StoreError /\ carts w' = carts w /\ products w' = products w /\
   users w' = users w /\ log w' = log w).
Proof.
  unfold write, committed.
  destruct (faults w) as [|[] fs]; intros [= <- <-]; auto.
  right. auto.
Qed.

Lemma checkout_ok_inv user w user' w' :
  checkout hasSetNonDefaultAddress user w = (Ok tt, user', w') ->
  exists cart items,
    Cart_findOne (email user) w = Some cart /\
    cartItems cart = Some items /\
    user' = debited user items /\
    w' = after_checkout user cart items w.
Proof.
  unfold checkout.
  destruct (Cart_findOne (email user) w) as [cart|]; [|done].
  destruct (cartItems cart) as [items|] eqn:Hi; [|done].
  destruct (length items =? 0)%nat; [done|].
  destruct (negb (hasSetNonDefaultAddress user)); [done|]. cbv zeta.
  change (fold_left _ items (of_Z 0)) with (cart_total items).
  destruct (num_gtb (cart_total items) (walletMoney user)); [done|].
  fold (debited user items). fold (emptied cart).
  destruct (User_save (debited user items) w) as [[[]|e] w1] eqn:Hu; [|done].
  destruct (Cart_save (emptied cart) w1) as [r w2] eqn:Hs.
  intros [= -> <- <-].
  apply write_outcome in Hu as [[_ ->]|[? _]]; [|done].
  apply write_outcome in Hs as [[_ ->]|[? _]]; [|done].
  by exists cart, items.
Qed.

(** C8. Every successful checkout persists the debited user document
    first and the emptied cart second: the log grows by exactly these
    two writes, in this order, and afterwards the users collection holds
    the debited document and the carts collection the emptied cart under
    the user's email.  Nothing compensates for a failure of the second
    write: when the guards of checkout pass and the store accepts the
    user save and rejects the cart save, checkout ends with the store's
    error, the persisted wallet is the debited one and the persisted
    cart still holds its items.  When the user save itself is rejected,
    no cart save is attempted and nothing is persisted. *)
Theorem checkout_persists_wallet_before_cart :
  (forall user w user' w',
     checkout hasSetNonDefaultAddress user w = (Ok tt, user', w') ->
     exists cart items,
       Cart_findOne (email user) w = Some cart /\
       cartItems cart = Some items /\
       walletMoney user' = num_sub (walletMoney user) (cart_total items) /\
       log w' = log w ++ [UserSaved user'; CartSaved (emptied cart)] /\
       users w' = <[email user := user']> (users w) /\
       carts w' = <[email user := emptied cart]> (carts w) /\
       Cart_findOne (email user) w' = Some (emptied cart)) /\
  (forall user w cart items,
     Cart_findOne (email user) w = Some cart ->
     cartItems cart = Some items ->
     items <> [] ->
     hasSetNonDefaultAddress user = true ->
     num_gtb (cart_total items) (walletMoney user) = false ->
     (forall fs, faults w = false :: true :: fs ->
        exists w',
          checkout hasSetNonDefaultAddress user w
          = (Throw StoreError, debited user items, w') /\
          users w' = <[email user := debited user items]> (users w) /\
          carts w' = carts w /\
          Cart_findOne (email user) w' = Some cart /\
          log w' = log w ++ [UserSaved (debited user items)]) /\
     (forall fs, faults w = true :: fs ->
        exists w',
          checkout hasSetNonDefaultAddress user w
          = (Throw StoreError, debited user items, w') /\
          users w' = users w /\ carts w' = carts w /\ log w' = log w)).
Proof.
  split.
  - intros user w user' w' H.
    apply checkout_ok_inv in H as (cart & items & Hc & Hi & -> & ->).
    pose proof (Cart_findOne_email _ _ _ Hc) as He.
    exists cart, items. repeat split; try done.
    + unfold after_checkout, committed. simpl. by rewrite <- app_assoc.
    + unfold after_checkout, committed, put_cart, put_user. simpl.
      by rewrite He.
    + rewrite <- He. apply (Cart_findOne_put_cart _ (emptied cart)).
  - intros user w cart items Hc Hi Hne Ha Hg.
    rewrite (checkout_passes_guards _ _ _ _ Hc Hi Hne Ha Hg).
    unfold User_save, Cart_save. split; intros fs Hf.
    + assert (writes_accepted 1 w = true) as Hw
        by (unfold writes_accepted; by rewrite Hf).
      rewrite (write_accepted 0 _ _ _ Hw).
      erewrite write_rejected; [|by (unfold committed; simpl; rewrite Hf)].
      eexists. split; [reflexivity|]. simpl. repeat split. apply Hc.
    + erewrite write_rejected; [|exact Hf].
      eexists. split; [reflexivity|]. by simpl.
Qed.

End Checkout.


Lemma checkout_persists_wallet_before_cart_example :
  (exists w',
     checkout non_default (alice 500) (shop [false; true])
     = (Throw StoreError, alice 250, w') /\
     users w' = <["alice@qkart.io" := alice 250]> ∅ /\
     carts w' = carts (shop [false; true]) /\
     Cart_findOne "alice@qkart.io" w' = Some alice_cart /\
     log w' = [UserSaved (alice 250)]) /\
  (exists cart items,
     Cart_findOne "alice@qkart.io" (shop []) = Some cart /\
     cartItems cart = Some items /\
     of_Z 250 = num_sub (of_Z 500) (cart_total items) /\
     log (checkout non_default (alice 500) (shop [])).2
     = [UserSaved (alice 250); CartSaved (emptied cart)] /\
     users (checkout non_default (alice 500) (shop [])).2
     = <["alice@qkart.io" := alice 250]> ∅ /\
     carts (checkout non_default (alice 500) (shop [])).2
     = <["alice@qkart.io" := emptied cart]> (carts (shop [])) /\
     Cart_findOne "alice@qkart.io"
       (checkout non_default (alice 500) (shop [])).2
     = Some (emptied cart)).
Proof.
  destruct (checkout_persists_wallet_before_cart non_default) as [Hok Hfail].
  split.
  - destruct (Hfail (alice 500) (shop [false; true]) alice_cart
                [mkCartItem apple 2; mkCartItem pear 1]) as [H _];
      try (by vm_compute).
    apply (H []). reflexivity.
  - apply (Hok (alice 500) (shop []) (alice 250)
             (checkout non_default (alice 500) (shop [])).2).
    by vm_compute.
Defined.



(** ** Operations on a user without a cart *)

Ltac run_m :=
  unfold mbind, M_bind, bind, gets, throw, mret, M_ret, ret, try_catch;
  simpl.

Lemma getCartByUser_no_cart user w :
  Cart_findOne (email user) w = None ->
  getCartByUser user w
  = (Throw (ApiError NOT_FOUND (Some "User does not have a cart")), w).
Proof. intros H. unfold getCartByUser. run_m. by rewrite H. Qed.

Lemma checkout_no_cart addr user w :
  Cart_findOne (email user) w = None ->
  checkout addr user w
  = (Throw (ApiError NOT_FOUND (Some "User does not have a cart")), user, w).
Proof. intros H. unfold checkout. by rewrite H. Qed.

Lemma updateProductInCart_no_cart user productId quantity w :
  Cart_findOne (email user) w = None ->
  updateProductInCart user productId quantity w
  = (Throw (ApiError BAD_REQUEST
       (Some "User does not have a cart. Use POST to create cart and add a product")),
     w).
Proof. intros H. unfold updateProductInCart. run_m. by rewrite H. Qed.

Lemma deleteProductFromCart_no_cart user productId w :
  Cart_findOne (email user) w = None ->
  deleteProductFromCart user productId w
  = (Throw (ApiError BAD_REQUEST (Some "User does not have a cart")), w).
Proof. intros H. unfold deleteProductFromCart. run_m. by rewrite H. Qed.

(** C2, as the code has it.  For a user without a persisted cart the
    status is per operation: [getCartByUser] and [checkout] fail with 404
    Not Found, [updateProductInCart] and [deleteProductFromCart] fail
    with 400 Bad Request; none of them changes the world. *)
Theorem no_cart_status_per_operation addr user productId quantity w :
  Cart_findOne (email user) w = None ->
  (status_of (getCartByUser user w).1 = Some 404 /\
   (getCartByUser user w).2 = w) /\
  (status_of (checkout addr user w).1.1 = Some 404 /\
   (checkout addr user w).1.2 = user /\
   (checkout addr user w).2 = w) /\
  (status_of (updateProductInCart user productId quantity w).1 = Some 400 /\
   (updateProductInCart user productId quantity w).2 = w) /\
  (status_of (deleteProductFromCart user productId w).1 = Some 400 /\
   (deleteProductFromCart user productId w).2 = w).
Proof.
  intros H.
  rewrite (getCartByUser_no_cart _ _ H), (checkout_no_cart _ _ _ H),
    (updateProductInCart_no_cart _ _ _ _ H),
    (deleteProductFromCart_no_cart _ _ _ H).
  by repeat split.
Qed.

Lemma no_cart_status_per_operation_example :
  (status_of (getCartByUser (alice 500) (empty_shop [])).1 = Some 404 /\
   (getCartByUser (alice 500) (empty_shop [])).2 = empty_shop []) /\
  (status_of (checkout non_default (alice 500) (empty_shop [])).1.1 = Some 404 /\
   (checkout non_default (alice 500) (empty_shop [])).1.2 = alice 500 /\
   (checkout non_default (alice 500) (empty_shop [])).2 = empty_shop []) /\
  (status_of (updateProductInCart (alice 500) "p1" 3 (empty_shop [])).1
   = Some 400 /\
   (updateProductInCart (alice 500) "p1" 3 (empty_shop [])).2 = empty_shop []) /\
  (status_of (deleteProductFromCart (alice 500) "p1" (empty_shop [])).1
   = Some 400 /\
   (deleteProductFromCart (alice 500) "p1" (empty_shop [])).2 = empty_shop []).
Proof.
  apply (no_cart_status_per_operation non_default (alice 500) "p1" 3
           (empty_shop [])).
  by vm_compute.
Defined.

(** C2 as stated fails on [checkout]: for a user without a cart it
    answers 404, not 400. *)
Lemma checkout_no_cart_is_not_400 :
  Cart_findOne (email (alice 500)) (empty_shop []) = None /\
  (checkout non_default (alice 500) (empty_shop [])).1.1
  = Throw (ApiError 404 (Some "User does not have a cart")) /\
  status_of (checkout non_default (alice 500) (empty_shop [])).1.1 <> Some 400.
Proof. by vm_compute. Qed.

(** ** Lists of cart items *)

Lemma in_cart_false_not_elem productId items :
  in_cart productId items = false -> productId ∉ product_ids items.
Proof.
  unfold in_cart, product_ids.
  induction items as [|item items IH]; simpl.
  - intros _. apply not_elem_of_nil.
  - intros H. apply orb_false_iff in H as [Hs Hrest].
    apply bool_decide_eq_false in Hs.
    rewrite not_elem_of_cons. split; [congruence|by apply IH].
Qed.

Lemma product_ids_push items productInDB quantity :
  _id productInDB ∉ product_ids items ->
  NoDup (product_ids items) ->
  NoDup (product_ids (items ++ [mkCartItem productInDB quantity])).
Proof.
  intros Hnotin Hnd. unfold product_ids. rewrite map_app. simpl.
  apply NoDup_app. split; [done|]. split.
  - intros x Hx Hx'. apply list_elem_of_singleton in Hx'. by subst.
  - apply NoDup_singleton.
Qed.

(** ** Adding a product *)

Section AddProduct.

Variable default_payment_option : string.

Abbreviation add := (addProductToCart default_payment_option).

(** The duplicate check comes first: whatever the product store holds,
    a product that is in the cart is refused, and nothing is written. *)
Lemma addProductToCart_already_in_cart user productId quantity w cart :
  Cart_findOne (email user) w = Some cart ->
  cart_has productId cart = true ->
  add user productId quantity w
  = (Throw (ApiError BAD_REQUEST
       (Some "Product already in cart. Use the cart sidebar to update or remove product from cart")),
     w).
Proof.
  intros Hc Hin. unfold addProductToCart. run_m. rewrite Hc.
  unfold cart_has, in_cart in Hin. by rewrite Hin.
Qed.

Lemma addProductToCart_unknown_product_with_cart user productId quantity w cart :
  Product_findById productId w = None ->
  Cart_findOne (email user) w = Some cart ->
  cart_has productId cart = false ->
  add user productId quantity w
  = (Throw (ApiError BAD_REQUEST (Some "Product doesn't exist in database")),
     w).
Proof.
  intros Hp Hc Hin. unfold addProductToCart. run_m. rewrite Hc.
  unfold cart_has, in_cart in Hin. by rewrite Hin, Hp.
Qed.

Lemma addProductToCart_unknown_product_without_cart user productId quantity w :
  Product_findById productId w = None ->
  Cart_findOne (email user) w = None ->
  writes_accepted 1 w = true ->
  add user productId quantity w
  = (Throw (ApiError BAD_REQUEST (Some "Product doesn't exist in database")),
     committed (CartCreated (fresh_cart default_payment_option user))
               (put_cart (fresh_cart default_payment_option user)) w).
Proof.
  intros Hp Hc Hw. unfold addProductToCart, Cart_create. run_m. rewrite Hc.
  fold (fresh_cart default_payment_option user).
  rewrite (write_accepted 0 _ _ _ Hw). simpl.
  change (Product_findById productId (committed _ _ w))
    with (Product_findById productId w).
  by rewrite Hp.
Qed.

Lemma addProductToCart_creation_rejected user productId quantity w fs :
  Cart_findOne (email user) w = None ->
  faults w = true :: fs ->
  add user productId quantity w
  = (Throw (ApiError INTERNAL_SERVER_ERROR (Some "User cart Creation failed.")),
     mkWorld (carts w) (products w) (users w) fs (log w)).
Proof.
  intros Hc Hf. unfold addProductToCart, Cart_create. run_m. rewrite Hc.
  by rewrite (write_rejected _ _ _ _ Hf).
Qed.

(** C4, as the code has it.  Let [productId] resolve to no product.  If
    the user has a cart (which does not hold [productId]),
    [addProductToCart] fails with 400 and the world is left as it was.
    If the user has no cart, the empty cart is created first: when the
    store accepts that write the call still fails with 400, no item has
    been added, and the new empty cart is persisted; when the store
    rejects it the call fails with 500 and no cart is persisted. *)
Theorem addProductToCart_unknown_product user productId quantity w :
  Product_findById productId w = None ->
  (forall cart,
     Cart_findOne (email user) w = Some cart ->
     cart_has productId cart = false ->
     status_of (add user productId quantity w).1 = Some 400 /\
     (add user productId quantity w).2 = w) /\
  (Cart_findOne (email user) w = None ->
   writes_accepted 1 w = true ->
   status_of (add user productId quantity w).1 = Some 400 /\
   Cart_findOne (email user) (add user productId quantity w).2
   = Some (fresh_cart default_payment_option user) /\
   carts (add user productId quantity w).2
   = <[email user := fresh_cart default_payment_option user]> (carts w) /\
   log (add user productId quantity w).2
   = log w ++ [CartCreated (fresh_cart default_payment_option user)]) /\
  (Cart_findOne (email user) w = None ->
   (exists fs, faults w = true :: fs) ->
   status_of (add user productId quantity w).1 = Some 500 /\
   carts (add user productId quantity w).2 = carts w /\
   log (add user productId quantity w).2 = log w).
Proof.
  intros Hp. split; [|split].
  - intros cart Hc Hin.
    by rewrite (addProductToCart_unknown_product_with_cart _ _ _ _ _ Hp Hc Hin).
  - intros Hc Hw.
    rewrite (addProductToCart_unknown_product_without_cart _ _ _ _ Hp Hc Hw).
    split; [done|]. split; [|done].
    apply (Cart_findOne_put_cart _ (fresh_cart default_payment_option user)).
  - intros Hc [fs Hf].
    by rewrite (addProductToCart_creation_rejected _ _ _ _ _ Hc Hf).
Qed.

Lemma count_product_absent productId items :
  productId ∉ product_ids items -> count_product productId items = 0%nat.
Proof.
  unfold count_product, product_ids.
  induction items as [|item items IH]; simpl; [done|].
  rewrite not_elem_of_cons. intros [Hne Hnotin].
  unfold same_product at 1. rewrite bool_decide_eq_false_2 by congruence.
  by apply IH.
Qed.

Lemma count_product_unique productId items :
  in_cart productId items = true ->
  NoDup (product_ids items) ->
  count_product productId items = 1%nat.
Proof.
  unfold in_cart, count_product, product_ids.
  induction items as [|item items IH]; simpl; [done|].
  rewrite NoDup_cons. intros Hin [Hnotin Hnd].
  destruct (same_product productId item) eqn:Hs; simpl in *.
  - f_equal. apply count_product_absent.
    apply bool_decide_eq_true in Hs. by rewrite <- Hs.
  - by apply IH.
Qed.

Lemma addProductToCart_success user productId quantity w cart items p :
  Cart_findOne (email user) w = Some cart ->
  cartItems cart = Some items ->
  in_cart productId items = false ->
  Product_findById productId w = Some p ->
  writes_accepted 1 w = true ->
  let cart' := mkCart (cart_email cart)
                      (Some (items ++ [mkCartItem p quantity]))
                      (paymentOption cart) in
  add user productId quantity w
  = (Ok cart', committed (CartSaved cart') (put_cart cart') w).
Proof.
  intros Hc Hi Hin Hp Hw. unfold addProductToCart. run_m. rewrite Hc, Hi.
  unfold in_cart in Hin. rewrite Hin, Hp.
  unfold Cart_save. by rewrite (write_accepted 0 _ _ _ Hw).
Qed.

(** After a successful add, the same add is refused and the cart holds
    exactly one item for the product. *)
Lemma addProductToCart_second_call user productId quantity quantity' w cart items p :
  Cart_findOne (email user) w = Some cart ->
  cartItems cart = Some items ->
  in_cart productId items = false ->
  NoDup (product_ids items) ->
  Product_findById productId w = Some p ->
  writes_accepted 1 w = true ->
  exists cart1 w1,
    add user productId quantity w = (Ok cart1, w1) /\
    add user productId quantity' w1
    = (Throw (ApiError BAD_REQUEST
         (Some "Product already in cart. Use the cart sidebar to update or remove product from cart")),
       w1) /\
    Cart_findOne (email user) w1 = Some cart1 /\
    cartItems cart1 = Some (items ++ [mkCartItem p quantity]) /\
    count_product productId (items ++ [mkCartItem p quantity]) = 1%nat.
Proof.
  intros Hc Hi Hin Hnd Hp Hw.
  pose proof (Product_findById_id _ _ _ Hp) as Hid.
  set (cart1 := mkCart (cart_email cart)
                       (Some (items ++ [mkCartItem p quantity]))
                       (paymentOption cart)).
  assert (in_cart productId (items ++ [mkCartItem p quantity]) = true) as Hin1.
  { unfold in_cart. rewrite existsb_app. simpl. unfold same_product at 2.
    simpl. rewrite bool_decide_eq_true_2 by done. by rewrite orb_true_r. }
  assert (Cart_findOne (email user)
            (committed (CartSaved cart1) (put_cart cart1) w) = Some cart1) as Hc1.
  { rewrite <- (Cart_findOne_email _ _ _ Hc).
    apply (Cart_findOne_put_cart _ cart1). }
  exists cart1, (committed (CartSaved cart1) (put_cart cart1) w).
  split; [by apply addProductToCart_success|]. split.
  - by apply (addProductToCart_already_in_cart _ _ _ _ cart1).
  - split; [done|]. split; [done|].
    apply count_product_unique; [done|].
    apply product_ids_push; [|done].
    rewrite Hid. by apply in_cart_false_not_elem.
Qed.

(** C5. Adding a product that the user's cart already holds fails with
    400 Bad Request and writes nothing; the cart, which holds no product
    twice, still holds exactly one item for that product afterwards. *)
Theorem addProductToCart_rejects_second_add user productId quantity w cart items :
  Cart_findOne (email user) w = Some cart ->
  cartItems cart = Some items ->
  in_cart productId items = true ->
  NoDup (product_ids items) ->
  status_of (add user productId quantity w).1 = Some 400 /\
  (add user productId quantity w).2 = w /\
  exists cart' items',
    Cart_findOne (email user) (add user productId quantity w).2 = Some cart' /\
    cartItems cart' = Some items' /\
    count_product productId items' = 1%nat.
Proof.
  intros Hc Hi Hin Hnd.
  rewrite (addProductToCart_already_in_cart user productId quantity w cart Hc)
    by (unfold cart_has; by rewrite Hi).
  split; [done|]. split; [done|].
  exists cart, items. simpl. auto using count_product_unique.
Qed.

(** C6. The duplicate check precedes the product lookup: a product id
    that has an item in the user's cart is refused with the "already in
    cart" error whether or not it resolves to a product of the store, in
    particular when it does not. *)
Theorem addProductToCart_duplicate_check_first user productId quantity w cart items :
  Cart_findOne (email user) w = Some cart ->
  cartItems cart = Some items ->
  in_cart productId items = true ->
  (add user productId quantity w).1
  = Throw (ApiError BAD_REQUEST
      (Some "Product already in cart. Use the cart sidebar to update or remove product from cart")).
Proof.
  intros Hc Hi Hin.
  rewrite (addProductToCart_already_in_cart user productId quantity w cart Hc)
    by (unfold cart_has; by rewrite Hi).
  reflexivity.
Qed.

End AddProduct.

Lemma addProductToCart_unknown_product_example :
  (status_of (addProductToCart "COD" (alice 500) "p3" 1 (shop [])).1
   = Some 400 /\
   (addProductToCart "COD" (alice 500) "p3" 1 (shop [])).2 = shop []) /\
  (status_of (addProductToCart "COD" (alice 500) "p3" 1 (empty_shop [])).1
   = Some 400 /\
   Cart_findOne "alice@qkart.io"
     (addProductToCart "COD" (alice 500) "p3" 1 (empty_shop [])).2
   = Some (mkCart "alice@qkart.io" (Some []) "COD") /\
   carts (addProductToCart "COD" (alice 500) "p3" 1 (empty_shop [])).2
   = <["alice@qkart.io" := mkCart "alice@qkart.io" (Some []) "COD"]> ∅ /\
   log (addProductToCart "COD" (alice 500) "p3" 1 (empty_shop [])).2
   = [CartCreated (mkCart "alice@qkart.io" (Some []) "COD")]) /\
  (status_of (addProductToCart "COD" (alice 500) "p3" 1 (empty_shop [true])).1
   = Some 500 /\
   carts (addProductToCart "COD" (alice 500) "p3" 1 (empty_shop [true])).2 = ∅ /\
   log (addProductToCart "COD" (alice 500) "p3" 1 (empty_shop [true])).2 = []).
Proof.
  split; [|split].
  - destruct (addProductToCart_unknown_product "COD" (alice 500) "p3" 1
                (shop [])) as (H & _ & _); [by vm_compute|].
    apply (H alice_cart); by vm_compute.
  - destruct (addProductToCart_unknown_product "COD" (alice 500) "p3" 1
                (empty_shop [])) as (_ & H & _); [by vm_compute|].
    apply H; by vm_compute.
  - destruct (addProductToCart_unknown_product "COD" (alice 500) "p3" 1
                (empty_shop [true])) as (_ & _ & H); [by vm_compute|].
    apply H; [by vm_compute|]. by exists [].
Defined.

(** C4 as stated fails for a user without a cart: the call answers 400,
    yet the cart that it created on the way is persisted. *)
Lemma addProductToCart_unknown_product_persists_cart :
  Product_findById "p3" (empty_shop []) = None /\
  Cart_findOne "alice@qkart.io" (empty_shop []) = None /\
  status_of (addProductToCart "COD" (alice 500) "p3" 1 (empty_shop [])).1
  = Some 400 /\
  Cart_findOne "alice@qkart.io"
    (addProductToCart "COD" (alice 500) "p3" 1 (empty_shop [])).2
  = Some (mkCart "alice@qkart.io" (Some []) "COD") /\
  log (addProductToCart "COD" (alice 500) "p3" 1 (empty_shop [])).2
  = [CartCreated (mkCart "alice@qkart.io" (Some []) "COD")] /\
  carts (addProductToCart "COD" (alice 500) "p3" 1 (empty_shop [])).2
  <> carts (empty_shop []).
Proof.
  repeat split; by vm_compute.
Qed.

Lemma addProductToCart_rejects_second_add_example :
  status_of (addProductToCart "COD" (alice 500) "p1" 5 (shop [])).1
  = Some 400 /\
  (addProductToCart "COD" (alice 500) "p1" 5 (shop [])).2 = shop [] /\
  exists cart' items',
    Cart_findOne "alice@qkart.io"
      (addProductToCart "COD" (alice 500) "p1" 5 (shop [])).2 = Some cart' /\
    cartItems cart' = Some items' /\
    count_product "p1" items' = 1%nat.
Proof.
  apply (addProductToCart_rejects_second_add "COD" (alice 500) "p1" 5
           (shop []) alice_cart [mkCartItem apple 2; mkCartItem pear 1]);
    try (by vm_compute).
  apply (bool_decide_unpack _). by vm_compute.
Defined.

Lemma addProductToCart_duplicate_check_first_example :
  Product_findById "p1" (shop_without_products []) = None /\
  (addProductToCart "COD" (alice 500) "p1" 5 (shop_without_products [])).1
  = Throw (ApiError BAD_REQUEST
      (Some "Product already in cart. Use the cart sidebar to update or remove product from cart")).
Proof.
  split; [by vm_compute|].
  apply (addProductToCart_duplicate_check_first "COD" (alice 500) "p1" 5
           (shop_without_products []) alice_cart
           [mkCartItem apple 2; mkCartItem pear 1]);
    by vm_compute.
Defined.

(** ** Updating a quantity *)

Lemma findIndex_absent {A} (p : A -> bool) (l : list A) :
  existsb p l = false -> findIndex p l = -1.
Proof.
  induction l as [|x l IH]; simpl; [done|].
  destruct (p x); simpl; [done|]. intros H. by rewrite (IH H).
Qed.

Lemma findIndex_found {A} (p : A -> bool) (l : list A) :
  existsb p l = true ->
  exists i x, findIndex p l = Z.of_nat i /\ l !! i = Some x /\ p x = true.
Proof.
  induction l as [|x l IH]; simpl; [done|].
  destruct (p x) eqn:Hx; simpl.
  - intros _. by exists 0%nat, x.
  - intros H. destruct (IH H) as (i & y & Hi & Hl & Hy).
    exists (S i), y. rewrite Hi.
    destruct (Z.eqb_spec (Z.of_nat i) (-1)); [lia|].
    split; [lia|done].
Qed.

Lemma findIndex_insert {A} (p : A -> bool) (l : list A) i x y :
  l !! i = Some x -> p y = p x ->
  findIndex p (<[i := y]> l) = findIndex p l.
Proof.
  revert i. induction l as [|z l IH]; intros [|i]; simpl; try done.
  - intros [= ->] ->. done.
  - intros Hl Hp. by rewrite (IH i Hl Hp).
Qed.

Lemma updateProductInCart_found user productId quantity w cart items p i item :
  Cart_findOne (email user) w = Some cart ->
  cartItems cart = Some items ->
  Product_findById productId w = Some p ->
  findIndex (same_product productId) items = Z.of_nat i ->
  items !! i = Some item ->
  writes_accepted 1 w = true ->
  updateProductInCart user productId quantity w
  = (Ok (with_quantity cart items i item quantity),
     committed (CartSaved (with_quantity cart items i item quantity))
               (put_cart (with_quantity cart items i item quantity)) w).
Proof.
  intros Hc Hi Hp Hidx Hl Hw. unfold updateProductInCart. run_m.
  rewrite Hc, Hp, Hi, Hidx.
  destruct (Z.eqb_spec (Z.of_nat i) (-1)); [lia|].
  rewrite Nat2Z.id, Hl.
  fold (with_quantity cart items i item quantity).
  unfold Cart_save. by rewrite (write_accepted 0 _ _ _ Hw).
Qed.

(** C7. When the product exists and the user's cart holds an item for
    it, [updateProductInCart] (the store accepting the write) overwrites
    the quantity of that item, the first one for the product, with the
    new quantity, leaves its product and every other item as they were,
    persists the cart and returns it.  Repeating the call with the same
    quantity returns the same cart and leaves the three collections as
    the first call left them. *)
Theorem updateProductInCart_sets_quantity user productId quantity w cart items p :
  Cart_findOne (email user) w = Some cart ->
  cartItems cart = Some items ->
  Product_findById productId w = Some p ->
  in_cart productId items = true ->
  writes_accepted 2 w = true ->
  exists i item cart' w1 w2,
    findIndex (same_product productId) items = Z.of_nat i /\
    items !! i = Some item /\
    _id (product item) = productId /\
    cart' = mkCart (cart_email cart)
                   (Some (<[i := mkCartItem (product item) quantity]> items))
                   (paymentOption cart) /\
    (exists items',
       cartItems cart' = Some items' /\
       items' !! i = Some (mkCartItem (product item) quantity) /\
       forall j, j <> i -> items' !! j = items !! j) /\
    updateProductInCart user productId quantity w = (Ok cart', w1) /\
    Cart_findOne (email user) w1 = Some cart' /\
    updateProductInCart user productId quantity w1 = (Ok cart', w2) /\
    carts w2 = carts w1 /\ products w2 = products w1 /\ users w2 = users w1.
Proof.
  intros Hc Hi Hp Hin Hw2.
  destruct (findIndex_found _ _ Hin) as (i & item & Hidx & Hl & Hsame).
  assert (writes_accepted 1 w = true) as Hw1.
  { revert Hw2. unfold writes_accepted.
    destruct (faults w) as [|b [|b' fs]]; simpl; try done.
    intros H. apply andb_true_iff in H as [-> _]. done. }
  set (cart' := with_quantity cart items i item quantity).
  set (w1 := committed (CartSaved cart') (put_cart cart') w).
  assert (Cart_findOne (email user) w1 = Some cart') as Hc1.
  { rewrite <- (Cart_findOne_email _ _ _ Hc).
    apply (Cart_findOne_put_cart _ cart'). }
  assert (updateProductInCart user productId quantity w1
          = (Ok cart', committed (CartSaved cart') (put_cart cart') w1)) as H2.
  { assert (with_quantity cart' (<[i := mkCartItem (product item) quantity]> items)
              i (mkCartItem (product item) quantity) quantity = cart') as <-.
    { unfold with_quantity, cart'. simpl. by rewrite list_insert_insert_eq. }
    apply (updateProductInCart_found _ _ _ _ _ _ p); try done.
    - rewrite <- Hidx. by apply (findIndex_insert _ _ _ item).
    - apply list_lookup_insert_eq. by eapply lookup_lt_Some.
    - by apply writes_accepted_committed_cart. }
  exists i, item, cart', w1, (committed (CartSaved cart') (put_cart cart') w1).
  repeat split; try done.
  - by apply bool_decide_eq_true in Hsame.
  - exists (<[i := mkCartItem (product item) quantity]> items).
    split; [done|]. split.
    + apply list_lookup_insert_eq. by eapply lookup_lt_Some.
    + intros j Hj. by apply list_lookup_insert_ne.
  - by apply (updateProductInCart_found _ _ _ _ _ _ p).
  - unfold committed, put_cart, w1. simpl. by rewrite insert_insert_eq.
Qed.

Lemma updateProductInCart_sets_quantity_example :
  exists i item cart' w1 w2,
    findIndex (same_product "p2") [mkCartItem apple 2; mkCartItem pear 1]
    = Z.of_nat i /\
    [mkCartItem apple 2; mkCartItem pear 1] !! i = Some item /\
    _id (product item) = "p2" /\
    cart' = mkCart "alice@qkart.io"
                   (Some (<[i := mkCartItem (product item) 7]>
                            [mkCartItem apple 2; mkCartItem pear 1]))
                   "PAYMENT_OPTION_DEFAULT" /\
    (exists items',
       cartItems cart' = Some items' /\
       items' !! i = Some (mkCartItem (product item) 7) /\
       forall j, j <> i ->
         items' !! j = [mkCartItem apple 2; mkCartItem pear 1] !! j) /\
    updateProductInCart (alice 500) "p2" 7 (shop []) = (Ok cart', w1) /\
    Cart_findOne "alice@qkart.io" w1 = Some cart' /\
    updateProductInCart (alice 500) "p2" 7 w1 = (Ok cart', w2) /\
    carts w2 = carts w1 /\ products w2 = products w1 /\ users w2 = users w1.
Proof.
  apply (updateProductInCart_sets_quantity (alice 500) "p2" 7 (shop [])
           alice_cart [mkCartItem apple 2; mkCartItem pear 1] pear);
    by vm_compute.
Defined.

(** ** The uniqueness invariant *)

Lemma product_ids_set_quantity items i item quantity :
  items !! i = Some item ->
  product_ids (<[i := mkCartItem (product item) quantity]> items)
  = product_ids items.
Proof.
  intros Hl. unfold product_ids.
  change (map ?f ?l) with (f <$> l).
  rewrite list_fmap_insert. simpl.
  apply list_insert_id. by rewrite list_lookup_fmap, Hl.
Qed.

Lemma product_ids_filter (f : CartItem -> bool) items :
  NoDup (product_ids items) -> NoDup (product_ids (List.filter f items)).
Proof.
  unfold product_ids.
  induction items as [|item items IH]; simpl; [done|].
  rewrite NoDup_cons. intros [Hnotin Hnd].
  destruct (f item); simpl; [|by apply IH].
  apply NoDup_cons. split; [|by apply IH].
  intros Hin. apply Hnotin.
  apply list_elem_of_In, in_map_iff in Hin as (y & Hy & Hin).
  apply filter_In in Hin as [Hin _].
  apply list_elem_of_In, in_map_iff. by exists y.
Qed.

Lemma carts_unique_write_cart ev c w :
  carts_unique w -> cart_unique c ->
  carts_unique (write ev (put_cart c) w).2.
Proof.
  intros HI Hc. unfold write, carts_unique, put_cart in *.
  destruct (faults w) as [|[] fs]; simpl; try done;
    intros e c'; rewrite lookup_insert;
    (case_decide; [by intros [= <-]|apply HI]).
Qed.

Lemma carts_unique_write_user ev u w :
  carts_unique w -> carts_unique (write ev (put_user u) w).2.
Proof.
  intros HI. unfold write. by destruct (faults w) as [|[] fs].
Qed.

Lemma Cart_findOne_unique e w cart :
  carts_unique w -> Cart_findOne e w = Some cart -> cart_unique cart.
Proof. intros HI Hc. eapply HI, Cart_findOne_lookup, Hc. Qed.

Section Preserves.

Context (I : World -> Prop).

Lemma preserves_ret {A} (a : A) (Q : A -> Prop) :
  Q a -> preserves I (mret a) Q.
Proof. intros Ha w Hw. split; [done|]. by intros a' [= <-]. Qed.

Lemma preserves_throw {A} (e : Exn) (Q : A -> Prop) :
  preserves I (throw e) Q.
Proof. intros w Hw. by split. Qed.

Lemma preserves_gets {A} (f : World -> A) (Q : A -> Prop) :
  (forall w, I w -> Q (f w)) -> preserves I (gets f) Q.
Proof. intros Hf w Hw. split; [done|]. intros a [= <-]. by apply Hf. Qed.

Lemma preserves_bind {A B} (m : M A) (k : A -> M B) Q R :
  preserves I m Q ->
  (forall a, Q a -> preserves I (k a) R) ->
  preserves I (m ≫= k) R.
Proof.
  intros Hm Hk w Hw. unfold mbind, M_bind, bind.
  destruct (Hm w Hw) as [HI HQ].
  destruct (m w) as [[a|e] w1]; simpl in *; [|by split].
  by apply Hk; [apply HQ|].
Qed.

Lemma preserves_try_catch {A} (m : M A) (handler : Exn -> M A) Q :
  preserves I m Q ->
  (forall e, preserves I (handler e) Q) ->
  preserves I (try_catch m handler) Q.
Proof.
  intros Hm Hh w Hw. unfold try_catch.
  destruct (Hm w Hw) as [HI HQ].
  destruct (m w) as [[a|e] w1]; simpl in *; [by split|].
  by apply Hh.
Qed.

Lemma preserves_weaken {A} (m : M A) (Q R : A -> Prop) :
  preserves I m Q -> (forall a, Q a -> R a) -> preserves I m R.
Proof.
  intros Hm HQR w Hw. destruct (Hm w Hw) as [HI HQ]. split; [done|].
  intros a Ha. by apply HQR, HQ.
Qed.

End Preserves.

Lemma preserves_Cart_save c :
  cart_unique c -> preserves carts_unique (Cart_save c) (fun _ => True).
Proof.
  intros Hc w Hw. split; [|done]. by apply carts_unique_write_cart.
Qed.

Lemma preserves_Cart_create c :
  cart_unique c -> preserves carts_unique (Cart_create c) (fun c' => c' = c).
Proof.
  intros Hc. unfold Cart_create.
  apply preserves_bind with (Q := fun _ => True).
  - intros w Hw. split; [|done]. by apply carts_unique_write_cart.
  - intros _ _. by apply preserves_ret.
Qed.

Lemma preserves_Cart_findOne e :
  preserves carts_unique (gets (Cart_findOne e))
    (fun found => forall cart, found = Some cart -> cart_unique cart).
Proof.
  apply preserves_gets. intros w Hw cart Hc.
  by apply (Cart_findOne_unique e w).
Qed.

Lemma preserves_Product_findById id :
  preserves carts_unique (gets (Product_findById id))
    (fun found => forall p, found = Some p -> _id p = id).
Proof.
  apply preserves_gets. intros w _ p Hp. by apply (Product_findById_id id w).
Qed.

Lemma getCartByUser_preserves user :
  preserves carts_unique (getCartByUser user) cart_unique.
Proof.
  unfold getCartByUser.
  eapply preserves_bind; [apply preserves_Cart_findOne|].
  intros [cart|] Hc; [|apply preserves_throw].
  apply preserves_ret. by apply Hc.
Qed.

Lemma addProductToCart_preserves dpo user productId quantity :
  preserves carts_unique (addProductToCart dpo user productId quantity)
    cart_unique.
Proof.
  unfold addProductToCart.
  eapply preserves_bind; [apply preserves_Cart_findOne|].
  intros found Hfound.
  apply preserves_bind with (Q := cart_unique).
  { destruct found as [cart|].
    - apply preserves_ret. by apply Hfound.
    - apply preserves_try_catch; [|intros e; apply preserves_throw].
      eapply preserves_weaken; [apply preserves_Cart_create|].
      + unfold cart_unique. simpl. apply NoDup_nil_2.
      + intros c ->. unfold cart_unique. simpl. apply NoDup_nil_2. }
  intros cart Hcu. unfold cart_unique in Hcu. cbv zeta.
  destruct (cartItems cart) as [items|] eqn:Hi.
  - destruct (existsb (same_product productId) items) eqn:Hin;
      [apply preserves_throw|].
    eapply preserves_bind; [apply preserves_Product_findById|].
    intros [productInDB|] Hp; [|apply preserves_throw].
    assert (cart_unique
              (mkCart (cart_email cart)
                 (Some (items ++ [mkCartItem productInDB quantity]))
                 (paymentOption cart))) as Hnew.
    { unfold cart_unique. simpl. apply product_ids_push; [|done].
      rewrite (Hp productInDB eq_refl). by apply in_cart_false_not_elem. }
    eapply preserves_bind; [by apply preserves_Cart_save|].
    intros _ _. by apply preserves_ret.
  - eapply preserves_bind; [apply preserves_Product_findById|].
    intros [productInDB|] _; apply preserves_throw.
Qed.

Lemma updateProductInCart_preserves user productId quantity :
  preserves carts_unique (updateProductInCart user productId quantity)
    cart_unique.
Proof.
  unfold updateProductInCart.
  eapply preserves_bind; [apply preserves_Cart_findOne|].
  intros [cart|] Hfound; [|apply preserves_throw].
  pose proof (Hfound cart eq_refl) as Hcu. unfold cart_unique in Hcu.
  eapply preserves_bind; [apply preserves_Product_findById|].
  intros [productInDB|] _; [|apply preserves_throw]. cbv zeta.
  destruct (cartItems cart) as [items|] eqn:Hi;
    [|apply preserves_throw].
  destruct (findIndex (same_product productId) items =? -1);
    [apply preserves_throw|].
  destruct (items !! Z.to_nat (findIndex (same_product productId) items))
    as [item|] eqn:Hl; [|apply preserves_throw].
  assert (cart_unique
            (with_quantity cart items
               (Z.to_nat (findIndex (same_product productId) items))
               item quantity)) as Hnew.
  { unfold cart_unique. simpl. by rewrite product_ids_set_quantity. }
  eapply preserves_bind; [by apply preserves_Cart_save|].
  intros _ _. by apply preserves_ret.
Qed.

Lemma deleteProductFromCart_preserves user productId :
  preserves carts_unique (deleteProductFromCart user productId)
    (fun _ => True).
Proof.
  unfold deleteProductFromCart.
  eapply preserves_bind; [apply preserves_Cart_findOne|].
  intros [cart|] Hfound; [|apply preserves_throw].
  pose proof (Hfound cart eq_refl) as Hcu. unfold cart_unique in Hcu.
  cbv zeta.
  match goal with |- preserves _ (if ?b then _ else _) _ => destruct b end;
    [apply preserves_throw|].
  apply preserves_Cart_save. unfold cart_unique. simpl.
  destruct (cartItems cart) as [items|]; [|apply NoDup_nil_2].
  by apply product_ids_filter.
Qed.

Lemma checkout_carts_unique addr user w :
  carts_unique w -> carts_unique (checkout addr user w).2.
Proof.
  intros HI. unfold checkout.
  destruct (Cart_findOne (email user) w) as [cart|]; [|done].
  destruct (cartItems cart) as [items|]; [|done].
  destruct (length items =? 0)%nat; [done|].
  destruct (negb (addr user)); [done|]. cbv zeta.
  match goal with |- context [if ?b then _ else _] => destruct b end; [done|].
  unfold User_save, Cart_save.
  match goal with |- context [write ?ev (put_user ?u) w] =>
    pose proof (carts_unique_write_user ev u w HI) as Hu;
    destruct (write ev (put_user u) w) as [[[]|e] w1]; [|done]
  end.
  match goal with |- context [write ?ev (put_cart ?c) w1] =>
    pose proof (carts_unique_write_cart ev c w1 Hu) as Hc;
    destruct (write ev (put_cart c) w1) as [r w2]
  end.
  apply Hc. unfold cart_unique. simpl. apply NoDup_nil_2.
Qed.

Lemma run_op_carts_unique dpo addr op w :
  carts_unique w -> carts_unique (run_op dpo addr op w).
Proof.
  intros HI. destruct op as [user|user productId quantity
                            |user productId quantity|user productId|user];
    simpl.
  - by apply getCartByUser_preserves.
  - by apply addProductToCart_preserves.
  - by apply updateProductInCart_preserves.
  - by apply deleteProductFromCart_preserves.
  - by apply checkout_carts_unique.
Qed.

(** C9. No cart holds two items for the same product: the invariant
    holds of a store without carts, every operation of the service,
    whatever its arguments and its outcome, preserves it, and so it
    holds after any sequence of operations; the carts that
    [addProductToCart] and [updateProductInCart] return satisfy it as
    well. *)
Theorem carts_unique_invariant dpo addr :
  (forall op w, carts_unique w -> carts_unique (run_op dpo addr op w)) /\
  (forall ops w, carts_unique w -> carts_unique (run_ops dpo addr ops w)) /\
  (forall ops w, carts w = ∅ -> carts_unique (run_ops dpo addr ops w)) /\
  (forall user productId quantity w cart w',
     carts_unique w ->
     addProductToCart dpo user productId quantity w = (Ok cart, w') \/
     updateProductInCart user productId quantity w = (Ok cart, w') ->
     cart_unique cart).
Proof.
  assert (forall ops w, carts_unique w -> carts_unique (run_ops dpo addr ops w))
    as Hseq.
  { unfold run_ops. induction ops as [|op ops IH]; intros w HI; simpl; [done|].
    by apply IH, run_op_carts_unique. }
  split; [apply run_op_carts_unique|]. split; [done|]. split.
  - intros ops w Hempty. apply Hseq. intros e c.
    by rewrite Hempty, lookup_empty.
  - intros user productId quantity w cart w' HI [H|H].
    + apply (addProductToCart_preserves dpo user productId quantity w HI).
      by rewrite H.
    + apply (updateProductInCart_preserves user productId quantity w HI).
      by rewrite H.
Qed.

Lemma shop_carts_unique schedule : carts_unique (shop schedule).
Proof.
  intros e c. unfold shop. simpl. rewrite lookup_singleton_Some.
  intros [_ <-]. apply (bool_decide_unpack _). by vm_compute.
Qed.

Lemma carts_unique_invariant_example :
  carts_unique
    (run_op "COD" non_default (OpAdd (alice 500) "p1" 5) (shop [])) /\
  carts_unique
    (run_ops "COD" non_default
       [OpAdd (alice 500) "p1" 2; OpAdd (alice 500) "p1" 3;
        OpAdd (alice 500) "p2" 1; OpUpdate (alice 500) "p2" 4;
        OpDelete (alice 500) "p1"; OpCheckout (alice 500)]
       (empty_shop [])).
Proof.
  destruct (carts_unique_invariant "COD" non_default) as (Hstep & _ & Hrun & _).
  split.
  - apply Hstep, shop_carts_unique.
  - apply Hrun. reflexivity.
Defined.

(** The scenario of the specification: the first add succeeds, the
    second one is refused, and the cart holds one item for the product. *)
Example addProductToCart_twice :
  let w1 := (addProductToCart "COD" (alice 500) "p1" 2 (empty_shop [])).2 in
  status_of (addProductToCart "COD" (alice 500) "p1" 2 (empty_shop [])).1
  = None /\
  status_of (addProductToCart "COD" (alice 500) "p1" 3 w1).1 = Some 400 /\
  (addProductToCart "COD" (alice 500) "p1" 3 w1).2 = w1 /\
  Cart_findOne "alice@qkart.io" w1
  = Some (mkCart "alice@qkart.io" (Some [mkCartItem apple 2]) "COD").
Proof. repeat split; by vm_compute. Qed.

(** * Further properties of the service *)

(** ** Looking a cart up *)

(** X1. [getCartByUser] never changes the world.  It returns a cart
    exactly when one is persisted under the user's email, and then that
    very document, whose email is the user's; otherwise it fails with
    404 Not Found. *)
Theorem getCartByUser_reads_persisted_cart user w r w' :
  getCartByUser user w = (r, w') ->
  w' = w /\
  ((exists cart,
      r = Ok cart /\ carts w !! email user = Some cart /\
      cart_email cart = email user) \/
   (r = Throw (ApiError NOT_FOUND (Some "User does not have a cart")) /\
    Cart_findOne (email user) w = None)).
Proof.
  unfold getCartByUser. run_m.
  destruct (Cart_findOne (email user) w) as [cart|] eqn:Hc; intros [= <- <-].
  - split; [done|]. left. exists cart.
    eauto using Cart_findOne_lookup, Cart_findOne_email.
  - split; [done|]. by right.
Qed.

Lemma getCartByUser_reads_persisted_cart_example :
  (shop [] = shop []) /\
  ((exists cart,
      Ok alice_cart = Ok cart /\
      carts (shop []) !! "alice@qkart.io" = Some cart /\
      cart_email cart = "alice@qkart.io") \/
   (Ok alice_cart
    = Throw (ApiError NOT_FOUND (Some "User does not have a cart")) /\
    Cart_findOne "alice@qkart.io" (shop []) = None)).
Proof.
  apply (getCartByUser_reads_persisted_cart (alice 500) (shop [])
           (Ok alice_cart) (shop [])).
  by vm_compute.
Defined.

(** ** Removing a product *)

Lemma in_cart_without_product productId items :
  in_cart productId (without_product productId items) = false.
Proof.
  unfold in_cart, without_product.
  induction items as [|item items IH]; simpl; [done|].
  destruct (same_product productId item) eqn:Hs; simpl; [done|].
  by rewrite Hs, IH.
Qed.

Lemma filter_other_without_product productId productId' items :
  productId' <> productId ->
  List.filter (same_product productId') (without_product productId items)
  = List.filter (same_product productId') items.
Proof.
  intros Hne. unfold without_product.
  induction items as [|item items IH]; simpl; [done|].
  destruct (same_product productId item) eqn:Hs; simpl.
  - apply bool_decide_eq_true in Hs.
    assert (same_product productId' item = false) as ->
      by (apply bool_decide_eq_false; congruence).
    done.
  - by rewrite IH.
Qed.

Lemma without_product_absent productId items :
  in_cart productId items = false -> without_product productId items = items.
Proof.
  unfold in_cart, without_product.
  induction items as [|item items IH]; simpl; [done|].
  intros H. apply orb_false_iff in H as [-> Hrest]. simpl.
  by rewrite (IH Hrest).
Qed.

Lemma findIndex_in_cart productId items :
  in_cart productId items = true ->
  (findIndex (same_product productId) items =? -1) = false.
Proof.
  intros Hin. destruct (findIndex_found _ _ Hin) as (i & x & -> & _).
  apply Z.eqb_neq. lia.
Qed.

Lemma deleteProductFromCart_found user productId w cart items :
  Cart_findOne (email user) w = Some cart ->
  cartItems cart = Some items ->
  in_cart productId items = true ->
  writes_accepted 1 w = true ->
  let cart' := mkCart (cart_email cart)
                      (Some (without_product productId items))
                      (paymentOption cart) in
  deleteProductFromCart user productId w
  = (Ok tt, committed (CartSaved cart') (put_cart cart') w).
Proof.
  intros Hc Hi Hin Hw. unfold deleteProductFromCart. run_m.
  rewrite Hc, Hi, (findIndex_in_cart _ _ Hin).
  unfold Cart_save. by rewrite (write_accepted 0 _ _ _ Hw).
Qed.

Lemma deleteProductFromCart_absent user productId w cart :
  Cart_findOne (email user) w = Some cart ->
  cart_has productId cart = false ->
  deleteProductFromCart user productId w
  = (Throw (ApiError BAD_REQUEST (Some "Product not in cart")), w).
Proof.
  intros Hc Hin. unfold deleteProductFromCart. run_m. rewrite Hc.
  unfold cart_has in Hin. destruct (cartItems cart) as [items|]; [|done].
  by rewrite (findIndex_absent _ _ Hin).
Qed.

(** X2. When the user's cart holds an item for [productId] and the store
    accepts the write, [deleteProductFromCart] succeeds and persists the
    cart without any item for that product; the items of every other
    product are kept as they were, the cart document itself stays, and
    products and users are not touched. *)
Theorem deleteProductFromCart_removes_product user productId w cart items :
  Cart_findOne (email user) w = Some cart ->
  cartItems cart = Some items ->
  in_cart productId items = true ->
  writes_accepted 1 w = true ->
  exists cart' items' w',
    deleteProductFromCart user productId w = (Ok tt, w') /\
    Cart_findOne (email user) w' = Some cart' /\
    cartItems cart' = Some items' /\
    paymentOption cart' = paymentOption cart /\
    count_product productId items' = 0%nat /\
    (forall other, other <> productId ->
       List.filter (same_product other) items'
       = List.filter (same_product other) items) /\
    products w' = products w /\ users w' = users w /\
    log w' = log w ++ [CartSaved cart'].
Proof.
  intros Hc Hi Hin Hw.
  eexists _, (without_product productId items), _.
  split; [by apply (deleteProductFromCart_found _ _ _ cart items)|].
  split.
  { rewrite <- (Cart_findOne_email _ _ _ Hc).
    apply (Cart_findOne_put_cart _
             (mkCart (cart_email cart) (Some (without_product productId items))
                     (paymentOption cart))). }
  repeat split; try done.
  - apply count_product_absent, in_cart_false_not_elem,
      in_cart_without_product.
  - intros other Hne. by apply filter_other_without_product.
Qed.

Lemma deleteProductFromCart_removes_product_example :
  exists cart' items' w',
    deleteProductFromCart (alice 500) "p1" (shop []) = (Ok tt, w') /\
    Cart_findOne "alice@qkart.io" w' = Some cart' /\
    cartItems cart' = Some items' /\
    paymentOption cart' = "PAYMENT_OPTION_DEFAULT" /\
    count_product "p1" items' = 0%nat /\
    (forall other, other <> "p1" ->
       List.filter (same_product other) items'
       = List.filter (same_product other)
           [mkCartItem apple 2; mkCartItem pear 1]) /\
    products w' = products (shop []) /\ users w' = users (shop []) /\
    log w' = [CartSaved cart'].
Proof.
  apply (deleteProductFromCart_removes_product (alice 500) "p1" (shop [])
           alice_cart [mkCartItem apple 2; mkCartItem pear 1]);
    by vm_compute.
Defined.

(** X3. Removing a product that the user's cart does not hold fails with
    400 Bad Request ("Product not in cart") and leaves the world as it
    was. *)
Theorem deleteProductFromCart_not_in_cart user productId w cart :
  Cart_findOne (email user) w = Some cart ->
  cart_has productId cart = false ->
  deleteProductFromCart user productId w
  = (Throw (ApiError BAD_REQUEST (Some "Product not in cart")), w).
Proof. apply deleteProductFromCart_absent. Qed.

Lemma deleteProductFromCart_not_in_cart_example :
  deleteProductFromCart (alice 500) "p3" (shop [])
  = (Throw (ApiError BAD_REQUEST (Some "Product not in cart")), shop []).
Proof.
  apply (deleteProductFromCart_not_in_cart (alice 500) "p3" (shop [])
           alice_cart); by vm_compute.
Defined.

(** X4. Removing is not repeatable: after a successful
    [deleteProductFromCart], the same call fails with 400 Bad Request
    ("Product not in cart") and changes nothing.  Removing the only item
    of a cart leaves the cart persisted, with an empty item list. *)
Theorem deleteProductFromCart_twice user productId w cart items :
  Cart_findOne (email user) w = Some cart ->
  cartItems cart = Some items ->
  in_cart productId items = true ->
  writes_accepted 1 w = true ->
  exists w1,
    deleteProductFromCart user productId w = (Ok tt, w1) /\
    deleteProductFromCart user productId w1
    = (Throw (ApiError BAD_REQUEST (Some "Product not in cart")), w1) /\
    (forall item, items = [item] ->
       Cart_findOne (email user) w1
       = Some (mkCart (cart_email cart) (Some []) (paymentOption cart))).
Proof.
  intros Hc Hi Hin Hw.
  set (cart' := mkCart (cart_email cart)
                       (Some (without_product productId items))
                       (paymentOption cart)).
  assert (Cart_findOne (email user)
            (committed (CartSaved cart') (put_cart cart') w) = Some cart')
    as Hc1.
  { rewrite <- (Cart_findOne_email _ _ _ Hc).
    apply (Cart_findOne_put_cart _ cart'). }
  exists (committed (CartSaved cart') (put_cart cart') w).
  split; [by apply (deleteProductFromCart_found _ _ _ cart items)|].
  split.
  - apply (deleteProductFromCart_absent _ _ _ cart' Hc1).
    apply in_cart_without_product.
  - intros item ->. rewrite Hc1. unfold cart'. do 2 f_equal.
    unfold in_cart in Hin. simpl in Hin. rewrite orb_false_r in Hin.
    unfold without_product. simpl. by rewrite Hin.
Qed.

Lemma deleteProductFromCart_twice_example :
  exists w1,
    deleteProductFromCart (alice 500) "p1" (apple_shop []) = (Ok tt, w1) /\
    deleteProductFromCart (alice 500) "p1" w1
    = (Throw (ApiError BAD_REQUEST (Some "Product not in cart")), w1) /\
    (forall item, [mkCartItem apple 2] = [item] ->
       Cart_findOne "alice@qkart.io" w1
       = Some (mkCart "alice@qkart.io" (Some []) "PAYMENT_OPTION_DEFAULT")).
Proof.
  apply (deleteProductFromCart_twice (alice 500) "p1" (apple_shop [])
           apple_cart [mkCartItem apple 2]); by vm_compute.
Defined.

(** ** Adding a product, continued *)

Lemma cart_eta cart items :
  cartItems cart = Some items ->
  mkCart (cart_email cart) (Some items) (paymentOption cart) = cart.
Proof. destruct cart as [e its po]. simpl. by intros ->. Qed.

Lemma without_product_push productId items p quantity :
  _id p = productId ->
  in_cart productId items = false ->
  without_product productId (items ++ [mkCartItem p quantity]) = items.
Proof.
  intros Hid Hin. unfold without_product. rewrite List.filter_app. simpl.
  assert (same_product productId (mkCartItem p quantity) = true) as ->
    by by apply bool_decide_eq_true.
  simpl. rewrite app_nil_r. by apply without_product_absent.
Qed.

Lemma in_cart_push productId items p quantity :
  _id p = productId ->
  in_cart productId (items ++ [mkCartItem p quantity]) = true.
Proof.
  intros Hid. unfold in_cart. rewrite existsb_app. simpl.
  assert (same_product productId (mkCartItem p quantity) = true) as ->
    by by apply bool_decide_eq_true.
  by rewrite orb_true_r.
Qed.

Section AddProductMore.

Variable default_payment_option : string.

Abbreviation add := (addProductToCart default_payment_option).

(** X5. When the product exists and the user's cart does not hold it,
    [addProductToCart] (the store accepting the write) appends one item,
    the product as the store has it with the given quantity, after the
    items that were there, persists the cart with this single write and
    returns it; products and users are not touched. *)
Theorem addProductToCart_appends user productId quantity w cart items p :
  Cart_findOne (email user) w = Some cart ->
  cartItems cart = Some items ->
  in_cart productId items = false ->
  Product_findById productId w = Some p ->
  writes_accepted 1 w = true ->
  exists cart' w',
    add user productId quantity w = (Ok cart', w') /\
    cartItems cart' = Some (items ++ [mkCartItem p quantity]) /\
    _id p = productId /\
    cart_email cart' = email user /\
    paymentOption cart' = paymentOption cart /\
    Cart_findOne (email user) w' = Some cart' /\
    products w' = products w /\ users w' = users w /\
    log w' = log w ++ [CartSaved cart'].
Proof.
  intros Hc Hi Hin Hp Hw.
  eexists _, _.
  split; [by apply (addProductToCart_success _ _ _ _ _ cart items p)|].
  repeat split; try done.
  - by apply (Product_findById_id _ w).
  - simpl. by apply (Cart_findOne_email _ w).
  - rewrite <- (Cart_findOne_email _ _ _ Hc).
    apply (Cart_findOne_put_cart _
             (mkCart (cart_email cart)
                     (Some (items ++ [mkCartItem p quantity]))
                     (paymentOption cart))).
Qed.

Lemma addProductToCart_new_cart user productId quantity w p :
  Cart_findOne (email user) w = None ->
  Product_findById productId w = Some p ->
  writes_accepted 2 w = true ->
  let fresh := fresh_cart default_payment_option user in
  let cart' := mkCart (email user) (Some [mkCartItem p quantity])
                      default_payment_option in
  add user productId quantity w
  = (Ok cart',
     committed (CartSaved cart') (put_cart cart')
       (committed (CartCreated fresh) (put_cart fresh) w)).
Proof.
  intros Hc Hp Hw. unfold addProductToCart, Cart_create. run_m. rewrite Hc.
  fold (fresh_cart default_payment_option user).
  assert (writes_accepted 1 w = true) as Hw1.
  { revert Hw. unfold writes_accepted.
    destruct (faults w) as [|b [|b' fs]]; simpl; try done.
    intros H. apply andb_true_iff in H as [-> _]. done. }
  rewrite (write_accepted 0 _ _ _ Hw1). simpl.
  change (Product_findById productId (committed _ _ w))
    with (Product_findById productId w).
  rewrite Hp. unfold Cart_save.
  by rewrite (write_accepted 0 _ _ _
                (writes_accepted_committed_cart 1 _ _ _ Hw)).
Qed.

(** X6. For a user without a cart and a product that exists,
    [addProductToCart] (the store accepting both writes) creates the
    cart with the configured default payment option, then saves it with
    the one new item, in this order, and returns it. *)
Theorem addProductToCart_creates_cart user productId quantity w p :
  Cart_findOne (email user) w = None ->
  Product_findById productId w = Some p ->
  writes_accepted 2 w = true ->
  exists w',
    add user productId quantity w
    = (Ok (mkCart (email user) (Some [mkCartItem p quantity])
                  default_payment_option), w') /\
    Cart_findOne (email user) w'
    = Some (mkCart (email user) (Some [mkCartItem p quantity])
                   default_payment_option) /\
    products w' = products w /\ users w' = users w /\
    log w'
    = log w ++ [CartCreated (mkCart (email user) (Some [])
                                    default_payment_option);
                CartSaved (mkCart (email user) (Some [mkCartItem p quantity])
                                  default_payment_option)].
Proof.
  intros Hc Hp Hw. eexists.
  split; [by apply addProductToCart_new_cart|].
  split.
  { apply (Cart_findOne_put_cart _
             (mkCart (email user) (Some [mkCartItem p quantity])
                     default_payment_option)). }
  repeat split; try done.
  unfold committed, fresh_cart. simpl. by rewrite <- app_assoc.
Qed.

(** X7. Adding a product and removing it again is a round trip: from a
    cart that does not hold the product, [addProductToCart] followed by
    [deleteProductFromCart] (the store accepting both writes) leaves the
    carts collection, hence the user's cart, exactly as it was. *)
Theorem addProductToCart_then_delete user productId quantity w cart items p :
  Cart_findOne (email user) w = Some cart ->
  cartItems cart = Some items ->
  in_cart productId items = false ->
  Product_findById productId w = Some p ->
  writes_accepted 2 w = true ->
  exists cart1 w1 w2,
    add user productId quantity w = (Ok cart1, w1) /\
    deleteProductFromCart user productId w1 = (Ok tt, w2) /\
    carts w2 = carts w /\
    Cart_findOne (email user) w2 = Some cart.
Proof.
  intros Hc Hi Hin Hp Hw.
  pose proof (Product_findById_id _ _ _ Hp) as Hid.
  assert (writes_accepted 1 w = true) as Hw1.
  { revert Hw. unfold writes_accepted.
    destruct (faults w) as [|b [|b' fs]]; simpl; try done.
    intros H. apply andb_true_iff in H as [-> _]. done. }
  set (cart1 := mkCart (cart_email cart)
                       (Some (items ++ [mkCartItem p quantity]))
                       (paymentOption cart)).
  set (w1 := committed (CartSaved cart1) (put_cart cart1) w).
  assert (Cart_findOne (email user) w1 = Some cart1) as Hc1.
  { rewrite <- (Cart_findOne_email _ _ _ Hc).
    apply (Cart_findOne_put_cart _ cart1). }
  assert (deleteProductFromCart user productId w1
          = (Ok tt, committed (CartSaved cart) (put_cart cart) w1)) as Hdel.
  { rewrite (deleteProductFromCart_found user productId w1 cart1
               (items ++ [mkCartItem p quantity]) Hc1 eq_refl
               (in_cart_push _ _ _ _ Hid)
               (writes_accepted_committed_cart 1 _ _ _ Hw)).
    simpl. rewrite (without_product_push _ _ _ _ Hid Hin).
    by rewrite (cart_eta _ _ Hi). }
  exists cart1, w1, (committed (CartSaved cart) (put_cart cart) w1).
  split; [by apply (addProductToCart_success _ _ _ _ _ cart items p)|].
  split; [done|].
  assert (carts (committed (CartSaved cart) (put_cart cart) w1) = carts w)
    as Hcarts.
  { unfold committed, put_cart, w1, cart1. simpl.
    rewrite insert_insert_eq. apply insert_id.
    rewrite (Cart_findOne_email _ _ _ Hc).
    by apply Cart_findOne_lookup. }
  split; [done|].
  unfold Cart_findOne. rewrite Hcarts.
  by fold (Cart_findOne (email user) w).
Qed.

(** X8. Only the creation of the cart is guarded: for a user without a
    cart, when the store accepts [Cart.create] and rejects the
    [cart.save()] that follows, [addProductToCart] ends with the store's
    own error, not with an [ApiError], and the empty cart that it
    created stays persisted. *)
Theorem addProductToCart_save_rejected_after_create user productId quantity w p fs :
  Cart_findOne (email user) w = None ->
  Product_findById productId w = Some p ->
  faults w = false :: true :: fs ->
  exists w',
    add user productId quantity w = (Throw StoreError, w') /\
    Cart_findOne (email user) w'
    = Some (mkCart (email user) (Some []) default_payment_option) /\
    log w'
    = log w ++ [CartCreated (mkCart (email user) (Some [])
                                    default_payment_option)].
Proof.
  intros Hc Hp Hf. unfold addProductToCart, Cart_create. run_m. rewrite Hc.
  assert (writes_accepted 1 w = true) as Hw1
    by (unfold writes_accepted; by rewrite Hf).
  rewrite (write_accepted 0 _ _ _ Hw1). simpl.
  change (Product_findById productId (committed _ _ w))
    with (Product_findById productId w).
  rewrite Hp. unfold Cart_save.
  erewrite write_rejected; [|by (unfold committed; simpl; rewrite Hf)].
  eexists. split; [reflexivity|]. split; [|done].
  unfold Cart_findOne. simpl. rewrite lookup_insert_eq. simpl.
  by rewrite bool_decide_eq_true_2.
Qed.

End AddProductMore.

Lemma addProductToCart_appends_example :
  exists cart' w',
    addProductToCart "COD" (alice 500) "p2" 3 (apple_shop [])
    = (Ok cart', w') /\
    cartItems cart' = Some ([mkCartItem apple 2] ++ [mkCartItem pear 3]) /\
    _id pear = "p2" /\
    cart_email cart' = "alice@qkart.io" /\
    paymentOption cart' = "PAYMENT_OPTION_DEFAULT" /\
    Cart_findOne "alice@qkart.io" w' = Some cart' /\
    products w' = products (apple_shop []) /\
    users w' = users (apple_shop []) /\
    log w' = [CartSaved cart'].
Proof.
  apply (addProductToCart_appends "COD" (alice 500) "p2" 3 (apple_shop [])
           apple_cart [mkCartItem apple 2] pear); by vm_compute.
Defined.

Lemma addProductToCart_creates_cart_example :
  exists w',
    addProductToCart "COD" (alice 500) "p1" 2 (empty_shop [])
    = (Ok (mkCart "alice@qkart.io" (Some [mkCartItem apple 2]) "COD"), w') /\
    Cart_findOne "alice@qkart.io" w'
    = Some (mkCart "alice@qkart.io" (Some [mkCartItem apple 2]) "COD") /\
    products w' = products (empty_shop []) /\
    users w' = users (empty_shop []) /\
    log w'
    = [CartCreated (mkCart "alice@qkart.io" (Some []) "COD");
       CartSaved (mkCart "alice@qkart.io" (Some [mkCartItem apple 2]) "COD")].
Proof.
  apply (addProductToCart_creates_cart "COD" (alice 500) "p1" 2
           (empty_shop []) apple); by vm_compute.
Defined.

Lemma addProductToCart_then_delete_example :
  exists cart1 w1 w2,
    addProductToCart "COD" (alice 500) "p2" 3 (apple_shop [])
    = (Ok cart1, w1) /\
    deleteProductFromCart (alice 500) "p2" w1 = (Ok tt, w2) /\
    carts w2 = carts (apple_shop []) /\
    Cart_findOne "alice@qkart.io" w2 = Some apple_cart.
Proof.
  apply (addProductToCart_then_delete "COD" (alice 500) "p2" 3
           (apple_shop []) apple_cart [mkCartItem apple 2] pear);
    by vm_compute.
Defined.

Lemma addProductToCart_save_rejected_after_create_example :
  exists w',
    addProductToCart "COD" (alice 500) "p1" 2 (empty_shop [false; true])
    = (Throw StoreError, w') /\
    Cart_findOne "alice@qkart.io" w'
    = Some (mkCart "alice@qkart.io" (Some []) "COD") /\
    log w' = [CartCreated (mkCart "alice@qkart.io" (Some []) "COD")].
Proof.
  apply (addProductToCart_save_rejected_after_create "COD" (alice 500) "p1" 2
           (empty_shop [false; true]) apple []); by vm_compute.
Defined.

(** ** Updating a quantity, continued *)

(** X9. [updateProductInCart] looks the product up before it looks into
    the cart, the other way round than [addProductToCart]: with a cart
    at hand, a product id unknown to the store is refused with "Product
    doesn't exist in database" whatever the cart holds, and a known
    product without an item in the cart with "Product not in cart".
    Both are 400 Bad Request and leave the world as it was. *)
Theorem updateProductInCart_rejections user productId quantity w cart :
  Cart_findOne (email user) w = Some cart ->
  (Product_findById productId w = None ->
   updateProductInCart user productId quantity w
   = (Throw (ApiError BAD_REQUEST (Some "Product doesn't exist in database")),
      w)) /\
  (forall p,
     Product_findById productId w = Some p ->
     cart_has productId cart = false ->
     updateProductInCart user productId quantity w
     = (Throw (ApiError BAD_REQUEST (Some "Product not in cart")), w)).
Proof.
  intros Hc. split.
  - intros Hp. unfold updateProductInCart. run_m. by rewrite Hc, Hp.
  - intros p Hp Hin. unfold updateProductInCart. run_m. rewrite Hc, Hp.
    unfold cart_has in Hin. destruct (cartItems cart) as [items|]; [|done].
    by rewrite (findIndex_absent _ _ Hin).
Qed.

Lemma updateProductInCart_rejections_example :
  (updateProductInCart (alice 500) "p1" 9 (shop_without_products [])
   = (Throw (ApiError BAD_REQUEST (Some "Product doesn't exist in database")),
      shop_without_products [])) /\
  (updateProductInCart (alice 500) "p2" 9 (apple_shop [])
   = (Throw (ApiError BAD_REQUEST (Some "Product not in cart")),
      apple_shop [])).
Proof.
  split.
  - apply (proj1 (updateProductInCart_rejections (alice 500) "p1" 9
                    (shop_without_products []) alice_cart eq_refl));
      by vm_compute.
  - apply (proj2 (updateProductInCart_rejections (alice 500) "p2" 9
                    (apple_shop []) apple_cart eq_refl) pear);
      by vm_compute.
Defined.

Lemma total_cost_set_quantity items i item (q : number) :
  items !! i = Some item ->
  total_cost (<[i := mkCartItem (product item) q]> items)
  = total_cost items
    + to_Z (cost (product item)) * (to_Z q - to_Z (quantity item)).
Proof.
  revert i. induction items as [|x items IH]; intros [|i]; simpl; try done.
  - intros [= ->]. lia.
  - intros Hl. rewrite (IH i Hl). lia.
Qed.

(** X10. A successful [updateProductInCart] keeps the products of the
    cart and their order, and moves the exact total of the cart by the
    unit cost of the product times the difference between the new and
    the old quantity.  When the amounts of the cart are safe integers
    before and after the update, these exact totals are what [checkout]
    computes, before and after. *)
Theorem updateProductInCart_total_cost user productId (q : number) w cart items p :
  Cart_findOne (email user) w = Some cart ->
  cartItems cart = Some items ->
  Product_findById productId w = Some p ->
  in_cart productId items = true ->
  writes_accepted 1 w = true ->
  exists item cart' items' w',
    item ∈ items /\ _id (product item) = productId /\
    updateProductInCart user productId q w = (Ok cart', w') /\
    cartItems cart' = Some items' /\
    product_ids items' = product_ids items /\
    total_cost items'
    = total_cost items
      + to_Z (cost (product item)) * (to_Z q - to_Z (quantity item)) /\
    (safe_amounts items = true -> safe_amounts items' = true ->
     cart_total items = of_Z (total_cost items) /\
     cart_total items'
     = of_Z (total_cost items
             + to_Z (cost (product item)) * (to_Z q - to_Z (quantity item)))).
Proof.
  intros Hc Hi Hp Hin Hw.
  destruct (findIndex_found _ _ Hin) as (i & item & Hidx & Hl & Hsame).
  exists item. eexists _, (<[i := mkCartItem (product item) q]> items), _.
  split; [apply list_elem_of_lookup; by exists i|].
  split; [by apply bool_decide_eq_true in Hsame|].
  split; [by apply (updateProductInCart_found _ _ _ _ cart items p i item)|].
  split; [done|].
  split; [by apply product_ids_set_quantity|].
  split; [by apply total_cost_set_quantity|].
  intros Hs Hs'.
  rewrite <- (total_cost_set_quantity items i item q Hl).
  split; by apply cart_total_exact.
Qed.

Lemma updateProductInCart_total_cost_example :
  exists item cart' items' w',
    item ∈ [mkCartItem apple 2; mkCartItem pear 1] /\
    _id (product item) = "p2" /\
    updateProductInCart (alice 500) "p2" (of_Z 7) (shop []) = (Ok cart', w') /\
    cartItems cart' = Some items' /\
    product_ids items' = product_ids [mkCartItem apple 2; mkCartItem pear 1] /\
    total_cost items'
    = 250 + to_Z (cost (product item)) * (7 - to_Z (quantity item)) /\
    (safe_amounts [mkCartItem apple 2; mkCartItem pear 1] = true ->
     safe_amounts items' = true ->
     cart_total [mkCartItem apple 2; mkCartItem pear 1] = of_Z 250 /\
     cart_total items'
     = of_Z (250 + to_Z (cost (product item)) * (7 - to_Z (quantity item)))).
Proof.
  apply (updateProductInCart_total_cost (alice 500) "p2" (of_Z 7) (shop [])
           alice_cart [mkCartItem apple 2; mkCartItem pear 1] pear);
    by vm_compute.
Defined.

Lemma findIndex_in_range {A} (p : A -> bool) (l : list A) :
  findIndex p l <> -1 ->
  exists x, l !! Z.to_nat (findIndex p l) = Some x.
Proof.
  intros Hne. destruct (existsb p l) eqn:Hex.
  - destruct (findIndex_found _ _ Hex) as (i & x & -> & Hl & _).
    exists x. by rewrite Nat2Z.id.
  - by rewrite (findIndex_absent _ _ Hex) in Hne.
Qed.

(** X11. [updateProductInCart] and [deleteProductFromCart] persist
    nothing unless they succeed: whenever one of them ends with an
    exception, the three collections and the log are as before.  The
    exception is a 400 [ApiError] or the store's own error; the index
    that [findIndex] returns is always in range, so the quantity
    assignment never fails. *)
Theorem update_and_delete_all_or_nothing user productId (q : number) w e w' :
  updateProductInCart user productId q w = (Throw e, w') \/
  deleteProductFromCart user productId w = (Throw e, w') ->
  carts w' = carts w /\ products w' = products w /\ users w' = users w /\
  log w' = log w /\
  ((exists message, e = ApiError BAD_REQUEST message) \/ e = StoreError).
Proof.
  intros [H|H]; revert H.
  - unfold updateProductInCart. run_m.
    destruct (Cart_findOne (email user) w) as [cart|];
      [|intros [= <- <-]; eauto 10].
    destruct (Product_findById productId w) as [p|];
      [|intros [= <- <-]; eauto 10].
    destruct (cartItems cart) as [items|]; [|intros [= <- <-]; eauto 10].
    destruct (Z.eqb_spec (findIndex (same_product productId) items) (-1))
      as [|Hne]; [intros [= <- <-]; eauto 10|].
    destruct (findIndex_in_range _ _ Hne) as [item ->].
    unfold Cart_save.
    match goal with |- context [write ?ev ?upd w] =>
      destruct (write ev upd w) as [[[]|e1] w1] eqn:Hw; [done|]
    end.
    intros [= <- <-].
    apply write_outcome in Hw as [[? _]|([= ->] & ? & ? & ? & ?)]; [done|].
    eauto 10.
  - unfold deleteProductFromCart. run_m.
    destruct (Cart_findOne (email user) w) as [cart|];
      [|intros [= <- <-]; eauto 10].
    match goal with |- context [if ?b then _ else _] => destruct b end;
      [intros [= <- <-]; eauto 10|].
    unfold Cart_save. intros Hw.
    apply write_outcome in Hw as [[? _]|([= ->] & ? & ? & ? & ?)]; [done|].
    eauto 10.
Qed.

Lemma update_and_delete_all_or_nothing_example :
  let w' := (updateProductInCart (alice 500) "p1" 9 (shop [true])).2 in
  carts w' = carts (shop [true]) /\
  products w' = products (shop [true]) /\
  users w' = users (shop [true]) /\
  log w' = log (shop [true]) /\
  ((exists message, StoreError = ApiError BAD_REQUEST message) \/
   StoreError = StoreError).
Proof.
  apply (update_and_delete_all_or_nothing (alice 500) "p1" 9 (shop [true])
           StoreError).
  left. by vm_compute.
Defined.

(** ** Checkout, continued *)

Section CheckoutMore.

Variable hasSetNonDefaultAddress : User -> bool.

(** X12. With a cart at hand, [checkout] fails with 400 Bad Request when
    the cart has no item list or an empty one, or when the user has not
    set a non-default address; the user document and the world are left
    as they were. *)
Theorem checkout_rejects_empty_cart_or_default_address user w cart :
  Cart_findOne (email user) w = Some cart ->
  cartItems cart = None \/ cartItems cart = Some [] \/
  hasSetNonDefaultAddress user = false ->
  checkout hasSetNonDefaultAddress user w = (Throw (ApiError BAD_REQUEST None), user, w).
Proof.
  intros Hc H. unfold checkout. rewrite Hc.
  destruct (cartItems cart) as [[|item items]|]; try done.
  destruct H as [H|[H|H]]; try done. by rewrite H.
Qed.

(** X13. A [checkout] that ends with an [ApiError] has changed nothing:
    the user document and the world are as before, and the status is
    404 or 400. *)
Theorem checkout_api_error_changes_nothing user w statusCode message user' w' :
  checkout hasSetNonDefaultAddress user w = (Throw (ApiError statusCode message), user', w') ->
  user' = user /\ w' = w /\ (statusCode = 404 \/ statusCode = 400).
Proof.
  unfold checkout.
  destruct (Cart_findOne (email user) w) as [cart|];
    [|intros [= <- <- <- <-]; auto].
  destruct (cartItems cart) as [items|]; [|intros [= <- <- <- <-]; auto].
  destruct (length items =? 0)%nat; [intros [= <- <- <- <-]; auto|].
  destruct (negb (hasSetNonDefaultAddress user));
    [intros [= <- <- <- <-]; auto|].
  cbv zeta.
  match goal with |- context [if ?b then _ else _] => destruct b end;
    [intros [= <- <- <- <-]; auto|].
  unfold User_save, Cart_save.
  match goal with |- context [write ?ev ?upd w] =>
    destruct (write ev upd w) as [[[]|e1] w1] eqn:Hu
  end.
  - match goal with |- context [write ?ev ?upd w1] =>
      destruct (write ev upd w1) as [r w2] eqn:Hs
    end.
    intros [= -> <- <-].
    by apply write_outcome in Hs as [[? _]|[? _]].
  - intros [= -> <- <-].
    by apply write_outcome in Hu as [[? _]|[? _]].
Qed.

(** X14. Nobody pays twice: after every successful [checkout], a second
    [checkout] with the user document that the first one left finds the
    emptied cart, fails with 400 Bad Request and changes neither the
    document, so that the wallet is debited once, nor the world. *)
Theorem checkout_twice user w user1 w1 :
  checkout hasSetNonDefaultAddress user w = (Ok tt, user1, w1) ->
  checkout hasSetNonDefaultAddress user1 w1
  = (Throw (ApiError BAD_REQUEST None), user1, w1) /\
  exists cart items,
    Cart_findOne (email user) w = Some cart /\
    cartItems cart = Some items /\
    walletMoney user1 = num_sub (walletMoney user) (cart_total items) /\
    Cart_findOne (email user1) w1 = Some (emptied cart).
Proof.
  intros H.
  apply checkout_ok_inv in H as (cart & items & Hc & Hi & -> & ->).
  assert (Cart_findOne (email (debited user items))
            (after_checkout user cart items w) = Some (emptied cart))
    as Hc1.
  { simpl. rewrite <- (Cart_findOne_email _ _ _ Hc).
    apply (Cart_findOne_put_cart _ (emptied cart)). }
  split; [unfold checkout; by rewrite Hc1|].
  by exists cart, items.
Qed.

End CheckoutMore.

Lemma checkout_rejects_empty_cart_or_default_address_example :
  checkout non_default (mkUser "alice@qkart.io" 500 "ADDRESS_NOT_SET") (shop [])
  = (Throw (ApiError BAD_REQUEST None),
     mkUser "alice@qkart.io" 500 "ADDRESS_NOT_SET", shop []).
Proof.
  apply (checkout_rejects_empty_cart_or_default_address non_default
           (mkUser "alice@qkart.io" 500 "ADDRESS_NOT_SET") (shop [])
           alice_cart); [by vm_compute|].
  right. right. by vm_compute.
Defined.

Lemma checkout_api_error_changes_nothing_example :
  alice 100 = alice 100 /\ shop [] = shop [] /\ (400 = 404 \/ 400 = 400).
Proof.
  apply (checkout_api_error_changes_nothing non_default (alice 100) (shop [])
           400 None (alice 100) (shop [])).
  by vm_compute.
Defined.

Lemma checkout_twice_example :
  let r := checkout non_default (alice 500) (shop []) in
  checkout non_default r.1.2 r.2
  = (Throw (ApiError BAD_REQUEST None), r.1.2, r.2) /\
  exists cart items,
    Cart_findOne "alice@qkart.io" (shop []) = Some cart /\
    cartItems cart = Some items /\
    walletMoney r.1.2 = num_sub (of_Z 500) (cart_total items) /\
    Cart_findOne (email r.1.2) r.2 = Some (emptied cart).
Proof.
  apply (checkout_twice non_default (alice 500) (shop [])).
  by vm_compute.
Defined.

(** ** A cart document without an item list *)

(** X15. When the user's cart document has no item list,
    [addProductToCart] cannot append: for a product that exists it fails
    with 500 Internal Server Error (without a message), for an unknown
    product with 400 Bad Request; in both cases nothing is written. *)
Theorem addProductToCart_cart_without_item_list dpo user productId quantity w cart :
  Cart_findOne (email user) w = Some cart ->
  cartItems cart = None ->
  addProductToCart dpo user productId quantity w
  = (match Product_findById productId w with
     | Some _ => Throw (ApiError INTERNAL_SERVER_ERROR None)
     | None =>
         Throw (ApiError BAD_REQUEST (Some "Product doesn't exist in database"))
     end, w).
Proof.
  intros Hc Hi. unfold addProductToCart. run_m. rewrite Hc, Hi.
  by destruct (Product_findById productId w).
Qed.

Lemma addProductToCart_cart_without_item_list_example :
  addProductToCart "COD" (alice 500) "p1" 2 (bare_shop [])
  = (Throw (ApiError INTERNAL_SERVER_ERROR None), bare_shop []).
Proof.
  apply (addProductToCart_cart_without_item_list "COD" (alice 500) "p1" 2
           (bare_shop []) bare_cart); by vm_compute.
Defined.

(** ** What a successful call returns *)

Lemma getCartByUser_found user w cart :
  Cart_findOne (email user) w = Some cart ->
  getCartByUser user w = (Ok cart, w).
Proof. intros H. unfold getCartByUser. run_m. by rewrite H. Qed.

Lemma Cart_findOne_committed ev c e w :
  cart_email c = e ->
  Cart_findOne e (committed ev (put_cart c) w) = Some c.
Proof. intros <-. apply Cart_findOne_put_cart. Qed.

Lemma addProductToCart_ok_persisted dpo user productId quantity w cart w' :
  addProductToCart dpo user productId quantity w = (Ok cart, w') ->
  Cart_findOne (email user) w' = Some cart.
Proof.
  unfold addProductToCart, Cart_create, Cart_save. run_m.
  destruct (Cart_findOne (email user) w) as [cart0|] eqn:Hc.
  - pose proof (Cart_findOne_email _ _ _ Hc) as He.
    destruct (cartItems cart0) as [items|].
    + destruct (existsb (same_product productId) items); [done|].
      destruct (Product_findById productId w) as [p|]; [|done].
      match goal with |- context [write ?ev ?upd w] =>
        destruct (write ev upd w) as [[[]|e1] w1] eqn:Hw; [|done]
      end.
      intros [= <- <-].
      apply write_outcome in Hw as [[_ ->]|[? _]]; [|done].
      by apply Cart_findOne_committed.
    + by destruct (Product_findById productId w).
  - match goal with |- context [write ?ev ?upd w] =>
      destruct (write ev upd w) as [[[]|e1] w1] eqn:Hw; [|done]
    end.
    simpl.
    destruct (Product_findById productId w1) as [p|]; [|done].
    match goal with |- context [write ?ev ?upd w1] =>
      destruct (write ev upd w1) as [[[]|e2] w2] eqn:Hw2; [|done]
    end.
    intros [= <- <-].
    apply write_outcome in Hw2 as [[_ ->]|[? _]]; [|done].
    by apply Cart_findOne_committed.
Qed.

Lemma updateProductInCart_ok_persisted user productId quantity w cart w' :
  updateProductInCart user productId quantity w = (Ok cart, w') ->
  Cart_findOne (email user) w' = Some cart.
Proof.
  unfold updateProductInCart, Cart_save. run_m.
  destruct (Cart_findOne (email user) w) as [cart0|] eqn:Hc; [|done].
  pose proof (Cart_findOne_email _ _ _ Hc) as He.
  destruct (Product_findById productId w) as [p|]; [|done].
  destruct (cartItems cart0) as [items|]; [|done].
  destruct (findIndex (same_product productId) items =? -1); [done|].
  destruct (items !! Z.to_nat (findIndex (same_product productId) items))
    as [item|]; [|done].
  match goal with |- context [write ?ev ?upd w] =>
    destruct (write ev upd w) as [[[]|e1] w1] eqn:Hw; [|done]
  end.
  intros [= <- <-].
  apply write_outcome in Hw as [[_ ->]|[? _]]; [|done].
  by apply Cart_findOne_committed.
Qed.

(** X16. The cart that a successful [addProductToCart] or
    [updateProductInCart] returns is the cart that is persisted: it
    carries the user's email, and a [getCartByUser] right after the call
    returns the same document. *)
Theorem returned_cart_is_persisted dpo user productId quantity w cart w' :
  addProductToCart dpo user productId quantity w = (Ok cart, w') \/
  updateProductInCart user productId quantity w = (Ok cart, w') ->
  getCartByUser user w' = (Ok cart, w') /\
  cart_email cart = email user.
Proof.
  intros H.
  assert (Cart_findOne (email user) w' = Some cart) as Hc.
  { destruct H as [H|H];
      eauto using addProductToCart_ok_persisted,
                  updateProductInCart_ok_persisted. }
  split; [by apply getCartByUser_found|by apply (Cart_findOne_email _ w')].
Qed.

Lemma returned_cart_is_persisted_example :
  let r := addProductToCart "COD" (alice 500) "p1" 2 (empty_shop []) in
  getCartByUser (alice 500) r.2
  = (Ok (mkCart "alice@qkart.io" (Some [mkCartItem apple 2]) "COD"), r.2) /\
  cart_email (mkCart "alice@qkart.io" (Some [mkCartItem apple 2]) "COD")
  = "alice@qkart.io".
Proof.
  apply (returned_cart_is_persisted "COD" (alice 500) "p1" 2 (empty_shop [])).
  left. by vm_compute.
Defined.

(** ** Other users' documents *)

Lemma untouched_write_cart user w0 ev c w :
  cart_email c = email user ->
  untouched_elsewhere user w0 w ->
  untouched_elsewhere user w0 (write ev (put_cart c) w).2.
Proof.
  intros He (Hp & Hc & Hu). unfold write, untouched_elsewhere, put_cart.
  destruct (faults w) as [|[] fs]; simpl; repeat split; try done;
    intros e Hne; rewrite lookup_insert_ne by congruence; by apply Hc.
Qed.

Lemma users_write_cart ev c w :
  users (write ev (put_cart c) w).2 = users w.
Proof. unfold write. by destruct (faults w) as [|[] fs]. Qed.

Lemma untouched_write_user user w0 ev u w :
  email u = email user ->
  untouched_elsewhere user w0 w ->
  untouched_elsewhere user w0 (write ev (put_user u) w).2.
Proof.
  intros He (Hp & Hc & Hu). unfold write, untouched_elsewhere, put_user.
  destruct (faults w) as [|[] fs]; simpl; repeat split; try done;
    intros e Hne; rewrite lookup_insert_ne by congruence; by apply Hu.
Qed.

Lemma carts_only_write_cart user w0 ev c w :
  cart_email c = email user ->
  carts_only user w0 w ->
  carts_only user w0 (write ev (put_cart c) w).2.
Proof.
  intros He [Hu Hus]. split; [by apply untouched_write_cart|].
  by rewrite users_write_cart.
Qed.

Section Frame.

Variables (user : User) (w0 : World).

Lemma frame_Cart_findOne :
  preserves (carts_only user w0) (gets (Cart_findOne (email user)))
    (own_cart user).
Proof.
  apply preserves_gets. intros w _ cart. apply Cart_findOne_email.
Qed.

Lemma frame_Cart_save c :
  cart_email c = email user ->
  preserves (carts_only user w0) (Cart_save c) (fun _ => True).
Proof.
  intros He w Hw. split; [|done]. by apply carts_only_write_cart.
Qed.

Lemma frame_getCartByUser :
  preserves (carts_only user w0) (getCartByUser user) (fun _ => True).
Proof.
  unfold getCartByUser.
  eapply preserves_bind; [apply frame_Cart_findOne|].
  intros [cart|] _; [by apply preserves_ret|apply preserves_throw].
Qed.

Lemma frame_addProductToCart dpo productId quantity :
  preserves (carts_only user w0)
    (addProductToCart dpo user productId quantity) (fun _ => True).
Proof.
  unfold addProductToCart.
  eapply preserves_bind; [apply frame_Cart_findOne|].
  intros found Hfound.
  apply preserves_bind with (Q := fun cart => cart_email cart = email user).
  { destruct found as [cart|].
    - apply preserves_ret. by apply Hfound.
    - apply preserves_try_catch; [|intros e; apply preserves_throw].
      unfold Cart_create.
      apply preserves_bind with (Q := fun _ => True).
      + intros w Hw. split; [|done]. by apply carts_only_write_cart.
      + intros _ _. by apply preserves_ret. }
  intros cart He. cbv zeta.
  match goal with |- preserves _ (if ?b then _ else _) _ => destruct b end;
    [apply preserves_throw|].
  apply preserves_bind with (Q := fun _ => True);
    [by apply preserves_gets|].
  intros [productInDB|] _; [|apply preserves_throw].
  destruct (cartItems cart) as [items|]; [|apply preserves_throw].
  eapply preserves_bind; [by apply frame_Cart_save|].
  intros _ _. by apply preserves_ret.
Qed.

Lemma frame_updateProductInCart productId quantity :
  preserves (carts_only user w0)
    (updateProductInCart user productId quantity) (fun _ => True).
Proof.
  unfold updateProductInCart.
  eapply preserves_bind; [apply frame_Cart_findOne|].
  intros [cart|] Hfound; [|apply preserves_throw].
  pose proof (Hfound cart eq_refl) as He.
  apply preserves_bind with (Q := fun _ => True);
    [by apply preserves_gets|].
  intros [productInDB|] _; [|apply preserves_throw]. cbv zeta.
  match goal with |- preserves _ (if ?b then _ else _) _ => destruct b end;
    [apply preserves_throw|].
  destruct (cartItems cart) as [items|]; [|apply preserves_throw].
  match goal with |- preserves _ (match ?o with _ => _ end) _ =>
    destruct o as [item|] end; [|apply preserves_throw].
  eapply preserves_bind; [by apply frame_Cart_save|].
  intros _ _. by apply preserves_ret.
Qed.

Lemma frame_deleteProductFromCart productId :
  preserves (carts_only user w0) (deleteProductFromCart user productId)
    (fun _ => True).
Proof.
  unfold deleteProductFromCart.
  eapply preserves_bind; [apply frame_Cart_findOne|].
  intros [cart|] Hfound; [|apply preserves_throw].
  pose proof (Hfound cart eq_refl) as He. cbv zeta.
  match goal with |- preserves _ (if ?b then _ else _) _ => destruct b end;
    [apply preserves_throw|].
  by apply frame_Cart_save.
Qed.

Lemma frame_checkout addr :
  untouched_elsewhere user w0 (checkout addr user w0).2.
Proof.
  pose proof (conj eq_refl (conj (fun e _ => eq_refl) (fun e _ => eq_refl))
              : untouched_elsewhere user w0 w0) as H0.
  unfold checkout.
  destruct (Cart_findOne (email user) w0) as [cart|] eqn:Hc; [|done].
  pose proof (Cart_findOne_email _ _ _ Hc) as He.
  destruct (cartItems cart) as [items|]; [|done].
  destruct (length items =? 0)%nat; [done|].
  destruct (negb (addr user)); [done|]. cbv zeta.
  match goal with |- context [if ?b then _ else _] => destruct b end; [done|].
  unfold User_save, Cart_save.
  match goal with |- context [write ?ev (put_user ?u) w0] =>
    pose proof (untouched_write_user user w0 ev u w0 eq_refl H0) as Hu;
    destruct (write ev (put_user u) w0) as [[[]|e] w1]; [|done]
  end.
  match goal with |- context [write ?ev (put_cart ?c) w1] =>
    pose proof (untouched_write_cart user w0 ev c w1 He Hu) as Hs;
    destruct (write ev (put_cart c) w1) as [r w2]
  end.
  done.
Qed.

End Frame.

(** X17. Every operation leaves the products collection and the
    documents of all other users alone: the world after a request
    differs from the world before at most in the cart and the user
    document stored under the email of the requesting user.  Only
    [checkout] writes a user document; the other four operations leave
    the users collection as it is. *)
Theorem operations_touch_only_own_documents dpo addr op w :
  untouched_elsewhere (op_user op) w (run_op dpo addr op w) /\
  match op with
  | OpCheckout _ => True
  | _ => users (run_op dpo addr op w) = users w
  end.
Proof.
  assert (carts_only (op_user op) w w) as H0 by by repeat split.
  destruct op as [user|user productId quantity
                 |user productId quantity|user productId|user]; simpl in *.
  - by apply (frame_getCartByUser user w w H0).
  - by apply (frame_addProductToCart user w dpo productId quantity w H0).
  - by apply (frame_updateProductInCart user w productId quantity w H0).
  - by apply (frame_deleteProductFromCart user w productId w H0).
  - split; [apply frame_checkout|done].
Qed.
